(** * AI exam proctoring: the browser client and the fusion core

    The browser client ([frontend/exam.js], [frontend/enhanced_features.js]
    and the calibration wizard script) is embedded as state transformers
    over an explicit client state: the [examRunning] flag, the part of the
    document the scripts touch, the log of [fetch] calls and the console.
    Every promise callback is one atomic step of the event loop, given the
    outcome of the request it waits for.

    The signal-fusion core (score aggregator, violation tracker, alert
    engine, calibration manager) lives in the Python backend; it is
    modelled in [Module Core]. *)

From Stdlib Require Import String List Bool Arith ZArith QArith Qminmax Lia Lqa.
Import ListNotations.

Close Scope Q_scope.
Open Scope string_scope.
Open Scope list_scope.

(** ** JavaScript values, as far as the scripts look at them *)

Module JS.

Inductive jsval : Type :=
| JUndefined
| JNull
| JBool (b : bool)
| JNum (q : Q)
| JStr (s : string).

(** ToBoolean.  A JSON number is never NaN, so a number is falsy exactly
    when it is zero. *)
Definition truthy (v : jsval) : bool :=
  match v with
  | JUndefined | JNull => false
  | JBool b => b
  | JNum q => negb (Qeq_bool q 0)
  | JStr s => negb (String.eqb s "")
  end.

(** [a || b] *)
Definition jsor (a b : jsval) : jsval := if truthy a then a else b.

(** [v === "s"] *)
Definition strict_eq_str (v : jsval) (s : string) : bool :=
  match v with
  | JStr t => String.eqb t s
  | _ => false
  end.

(** A settled promise; the rejection reason is never inspected. *)
Inductive settled (A : Type) : Type :=
| Fulfilled (a : A)
| Rejected.
Arguments Fulfilled {A} a.
Arguments Rejected {A}.

(** Completion of a statement list: normal, or an exception was thrown. *)
Inductive completion (A : Type) : Type :=
| Normal (a : A)
| Thrown.
Arguments Normal {A} a.
Arguments Thrown {A}.

(** Statements over a mutable store [S]; the store keeps every write made
    before a throw. *)
Definition Js (S A : Type) : Type := S -> S * completion A.

Definition ret {S A} (a : A) : Js S A := fun s => (s, Normal a).

Definition throw {S A} : Js S A := fun s => (s, Thrown).

Definition bind {S A B} (m : Js S A) (k : A -> Js S B) : Js S B :=
  fun s =>
    match m s with
    | (s', Normal a) => k a s'
    | (s', Thrown) => (s', Thrown)
    end.

Definition modify {S} (f : S -> S) : Js S unit := fun s => (f s, Normal tt).

Definition gets {S A} (f : S -> A) : Js S A := fun s => (s, Normal (f s)).

(** [try { m } catch { h }] *)
Definition try_catch {S A} (m h : Js S A) : Js S A :=
  fun s =>
    match m s with
    | (s', Normal a) => (s', Normal a)
    | (s', Thrown) => h s'
    end.

(** [p.then(f).catch(g)] once [p] has settled: [g] runs when [p] rejected
    or when [f] threw. *)
Definition then_catch {S A} (p : settled A) (f : A -> Js S unit) (g : Js S unit)
  : Js S unit :=
  match p with
  | Fulfilled a => try_catch (f a) g
  | Rejected => g
  end.

(** [p.then(res => res.json())]: the promise of the parsed body takes
    the place of the promise of the response. *)
Definition json {A} (p : settled (settled A)) : settled A :=
  match p with
  | Fulfilled q => q
  | Rejected => Rejected
  end.

(** The store after running a top-level callback; an exception that
    escapes it is dropped by the event loop. *)
Definition exec {S A} (m : Js S A) (s : S) : S := fst (m s).

Definition threw {S A} (m : Js S A) (s : S) : bool :=
  match snd (m s) with
  | Normal _ => false
  | Thrown => true
  end.

End JS.
Import JS.

Declare Scope js_scope.
Delimit Scope js_scope with js.
Notation "x <- m ;; k" := (bind m (fun x => k))
  (at level 61, m at next level, right associativity) : js_scope.
Notation "m ;; k" := (bind m (fun _ => k))
  (at level 61, right associativity) : js_scope.
Open Scope js_scope.

(** ** The document *)

Module Dom.

(** An element the scripts reach by id: its class tokens and its text.
    The text is kept as the value that was assigned to [innerText]. *)
Record Element : Type := mkElement {
  className : list string;
  innerText : jsval
}.

(** [#examStatus] and the text of the [<span>] inside it, when it has one. *)
Record StatusElement : Type := mkStatus {
  statusClass : list string;
  statusSpan : option string
}.

(** What a child of [<body>] shows. *)
Inductive Content : Type :=
| Plain (text : jsval)
| StatsPanel (cells : list (string * jsval))
| NoStatsPanel
| WizardStep (stepIndex : jsval)
| Other.

(** A child of [<body>], in document order. *)
Record Node : Type := mkNode {
  nodeId : string;
  nodeClass : list string;
  nodeContent : Content
}.

Record Document : Type := mkDocument {
  examStatus : option StatusElement;
  scoreEl : option Element;
  alertBox : option Element;
  alertSection : option Element;
  alertTime : option Element;
  body : list Node
}.

Definition has_class (tok : string) (cls : list string) : bool :=
  existsb (String.eqb tok) cls.

(** [classList.add(tok)] *)
Definition classList_add (tok : string) (cls : list string) : list string :=
  if has_class tok cls then cls else cls ++ [tok].

(** [classList.remove(tok)] *)
Definition classList_remove (tok : string) (cls : list string) : list string :=
  filter (fun t => negb (String.eqb tok t)) cls.

Definition set_examStatus (e : option StatusElement) (d : Document) : Document :=
  mkDocument e (scoreEl d) (alertBox d) (alertSection d) (alertTime d) (body d).

Definition set_scoreEl (e : option Element) (d : Document) : Document :=
  mkDocument (examStatus d) e (alertBox d) (alertSection d) (alertTime d) (body d).

Definition set_alertBox (e : option Element) (d : Document) : Document :=
  mkDocument (examStatus d) (scoreEl d) e (alertSection d) (alertTime d) (body d).

Definition set_alertSection (e : option Element) (d : Document) : Document :=
  mkDocument (examStatus d) (scoreEl d) (alertBox d) e (alertTime d) (body d).

Definition set_alertTime (e : option Element) (d : Document) : Document :=
  mkDocument (examStatus d) (scoreEl d) (alertBox d) (alertSection d) e (body d).

Definition set_body (b : list Node) (d : Document) : Document :=
  mkDocument (examStatus d) (scoreEl d) (alertBox d) (alertSection d) (alertTime d) b.

(** [document.body.appendChild(n)] *)
Definition appendChild (n : Node) (d : Document) : Document :=
  set_body (body d ++ [n]) d.

(** [document.getElementById(id)] among the children of [<body>]. *)
Definition getElementById (id : string) (d : Document) : option Node :=
  find (fun n => String.eqb (nodeId n) id) (body d).

(** The selector [.fixed.inset-0]. *)
Definition is_overlay (n : Node) : bool :=
  has_class "fixed" (nodeClass n) && has_class "inset-0" (nodeClass n).

(** [document.querySelector('.fixed.inset-0')]: the first match in
    document order. *)
Definition querySelector_overlay (d : Document) : option Node :=
  find is_overlay (body d).

(** Remove the first node that satisfies [p]. *)
Fixpoint remove_first (p : Node -> bool) (l : list Node) : list Node :=
  match l with
  | [] => []
  | n :: l' => if p n then l' else n :: remove_first p l'
  end.

(** Replace the first node that satisfies [p] by its image under [f]. *)
Fixpoint update_first (p : Node -> bool) (f : Node -> Node) (l : list Node)
  : list Node :=
  match l with
  | [] => []
  | n :: l' => if p n then f n :: l' else n :: update_first p f l'
  end.

End Dom.
Import Dom.

(** ** The client state *)

Inductive Request : Type :=
| GET (url : string)
| POST (url : string).

Record Client : Type := mkClient {
  examRunning : bool;
  doc : Document;
  requests : list Request;
  consoleErrors : nat
}.

Definition set_examRunning (b : bool) (c : Client) : Client :=
  mkClient b (doc c) (requests c) (consoleErrors c).

Definition set_doc (d : Document) (c : Client) : Client :=
  mkClient (examRunning c) d (requests c) (consoleErrors c).

(** [fetch(url, ...)]: the request is issued; its promise settles in a
    later step. *)
Definition fetch (r : Request) : Js Client unit :=
  modify (fun c => mkClient (examRunning c) (doc c) (requests c ++ [r]) (consoleErrors c)).

(** [console.error(err)] *)
Definition console_error : Js Client unit :=
  modify (fun c => mkClient (examRunning c) (doc c) (requests c) (S (consoleErrors c))).

Definition modify_doc (f : Document -> Document) : Js Client unit :=
  modify (fun c => set_doc (f (doc c)) c).

(** ** frontend/exam.js *)

Module Exam.

Definition url_start_exam := "http://127.0.0.1:5000/start_exam".
Definition url_stop_exam := "http://127.0.0.1:5000/stop_exam".
Definition url_suspicion_score := "http://127.0.0.1:5000/suspicion_score".
Definition url_latest_alert := "http://127.0.0.1:5000/latest_alert".
Definition url_tab_switched := "http://127.0.0.1:5000/tab_switched".

(** The colour token of a toast, by notification type. *)
Definition notificationColor (type : string) : string :=
  if String.eqb type "success" then "bg-green-500"
  else if String.eqb type "error" then "bg-red-500"
  else "bg-blue-500".

Definition toast (message : jsval) (type : string) : Node :=
  mkNode ""
    ["fixed"; "top-4"; "right-4"; "p-4"; "rounded-lg"; "shadow-lg"; "z-50";
     "alert-slide"; notificationColor type; "text-white"; "font-semibold"]
    (Plain message).

(** [showNotification(message, type)]: a toast is appended to the body.
    Its removal three seconds later is a timer step and is not part of
    the call. *)
Definition showNotification (message : jsval) (type : string) : Js Client unit :=
  modify_doc (appendChild (toast message type)).

(** The object literal [colorClasses] of [updateExamStatus]. *)
Definition colorClasses : list (string * string) :=
  [("green", "bg-green-500"); ("red", "bg-red-500"); ("gray", "bg-gray-500")].

Fixpoint lookup (k : string) (o : list (string * string)) : option string :=
  match o with
  | [] => None
  | (k', v) :: o' => if String.eqb k k' then Some v else lookup k o'
  end.

(** [colorClasses[color] || colorClasses.gray] *)
Definition statusColor (color : string) : string :=
  match lookup color colorClasses with
  | Some v => v
  | None => "bg-gray-500"
  end.

(** [updateExamStatus(text, color)].  Without [#examStatus] nothing
    happens; with it the class is rewritten first, and the write to the
    span throws when [querySelector("span")] finds none. *)
Definition updateExamStatus (text color : string) : Js Client unit :=
  statusEl <- gets (fun c => examStatus (doc c)) ;;
  match statusEl with
  | None => ret tt
  | Some el =>
      let cls := [statusColor color; "bg-opacity-80"; "rounded-lg"; "px-4"; "py-2"] in
      modify_doc (set_examStatus (Some (mkStatus cls (statusSpan el)))) ;;
      match statusSpan el with
      | None => throw
      | Some _ => modify_doc (set_examStatus (Some (mkStatus cls (Some text))))
      end
  end.

(** The response object of [fetch], as far as [startExam] reads it. *)
Record Response : Type := mkResponse { ok : bool }.

(** [startExam()]: the call itself only issues the request. *)
Definition startExam : Js Client unit :=
  fetch (GET url_start_exam).

(** The [.then(res => ...).catch(err => ...)] chain of [startExam]. *)
Definition startExam_settled (p : settled Response) : Js Client unit :=
  then_catch p
    (fun res =>
       if ok res then
         modify (set_examRunning true) ;;
         updateExamStatus "Exam Running" "green" ;;
         showNotification (JStr "Exam started successfully") "success"
       else
         showNotification (JStr "Failed to start exam") "error")
    (showNotification (JStr "Backend not reachable") "error" ;;
     console_error).

(** [stopExam()] *)
Definition stopExam : Js Client unit :=
  running <- gets examRunning ;;
  if negb running then
    showNotification (JStr "Cannot stop exam - exam is not started yet!") "error"
  else
    fetch (GET url_stop_exam).

(** The [.then(() => ...).catch(err => console.error(err))] chain of
    [stopExam]. *)
Definition stopExam_settled (p : settled Response) : Js Client unit :=
  then_catch p
    (fun _ =>
       modify (set_examRunning false) ;;
       updateExamStatus "Exam Stopped" "red" ;;
       showNotification (JStr "Exam stopped") "info")
    console_error.

(** The body of a [/suspicion_score] response, [{ score: <number> }];
    a JSON number is a rational. *)
Record ScoreData : Type := mkScoreData { score : Q }.

(** The class written for a score. *)
Definition scoreClass (newScore : Q) : list string :=
  if Qle_bool 50 newScore then ["text-2xl"; "font-bold"; "text-red-400"]
  else if Qle_bool 25 newScore then ["text-2xl"; "font-bold"; "text-yellow-400"]
  else ["text-2xl"; "font-bold"; "text-white"].

(** The callback of the score poll on the parsed body.  [changed] is the
    outcome of [parseInt(scoreEl.innerText) !== newScore]. *)
Definition onScoreData (changed : bool) (data : ScoreData) : Js Client unit :=
  el <- gets (fun c => scoreEl (doc c)) ;;
  match el with
  | None => ret tt
  | Some e =>
      let newScore := score data in
      let cls1 := if changed then classList_add "pulse-animation" (className e)
                  else className e in
      modify_doc (set_scoreEl (Some (mkElement cls1 (innerText e)))) ;;
      modify_doc (set_scoreEl (Some (mkElement cls1 (JNum newScore)))) ;;
      modify_doc (set_scoreEl (Some (mkElement (scoreClass newScore) (JNum newScore))))
  end.

(** The score poll: [fetch], then [res.json()], then the callback. *)
Definition pollScore : Js Client unit := fetch (GET url_suspicion_score).

Definition pollScore_settled (changed : bool) (p : settled (settled ScoreData))
  : Js Client unit :=
  then_catch (json p) (onScoreData changed) console_error.

(** The timer set with the pulse, one second later. *)
Definition pulseTimer : Js Client unit :=
  el <- gets (fun c => scoreEl (doc c)) ;;
  match el with
  | None => ret tt
  | Some e =>
      modify_doc (set_scoreEl
        (Some (mkElement (classList_remove "pulse-animation" (className e))
                         (innerText e))))
  end.

(** The body of a [/latest_alert] response: the keys the callback reads. *)
Record AlertData : Type := mkAlertData {
  a_message : jsval;
  a_alert : jsval;
  a_level : jsval;
  a_time : jsval
}.

(** The callback of the alert poll on the parsed body. *)
Definition onAlertData (data : AlertData) : Js Client unit :=
  d <- gets doc ;;
  match alertBox d, alertSection d with
  | Some box, Some section =>
      let message := jsor (jsor (a_message data) (a_alert data)) (JStr "") in
      let time := jsor (a_time data) (JStr "") in
      if negb (truthy message) then
        modify_doc (set_alertSection
          (Some (mkElement (classList_add "hidden" (className section))
                           (innerText section))))
      else
        modify_doc (set_alertSection
          (Some (mkElement
                   (classList_add "alert-slide"
                      (classList_remove "hidden" (className section)))
                   (innerText section)))) ;;
        modify_doc (set_alertBox (Some (mkElement (className box) message))) ;;
        alertTimeEl <- gets (fun c => alertTime (doc c)) ;;
        match alertTimeEl with
        | Some t => modify_doc (set_alertTime (Some (mkElement (className t) time)))
        | None => ret tt
        end
  | _, _ => ret tt
  end.

Definition pollAlert : Js Client unit := fetch (GET url_latest_alert).

Definition pollAlert_settled (p : settled (settled AlertData)) : Js Client unit :=
  then_catch (json p) onAlertData console_error.

(** The [visibilitychange] listener; [hidden] is [document.hidden] at the
    time of the event. *)
Definition onVisibilityChange (hidden : bool) : Js Client unit :=
  running <- gets examRunning ;;
  if hidden && running then
    fetch (POST url_tab_switched) ;;
    showNotification (JStr "Warning: Tab switching detected!") "error"
  else
    ret tt.

(** The [.catch(err => console.error(err))] of the tab-switch request. *)
Definition tabSwitched_settled (p : settled Response) : Js Client unit :=
  match p with
  | Fulfilled _ => ret tt
  | Rejected => console_error
  end.

(** One turn of the event loop of [exam.js]. *)
Inductive Event : Type :=
| ClickStart
| StartSettled (p : settled Response)
| ClickStop
| StopSettled (p : settled Response)
| VisibilityChange (hidden : bool)
| TabSwitchedSettled (p : settled Response)
| ScoreTimer
| ScoreSettled (changed : bool) (p : settled (settled ScoreData))
| PulseTimer
| AlertTimer
| AlertSettled (p : settled (settled AlertData))
| ToastExpired.

(** The toast at the head of the body leaves it when its timer fires. *)
Definition is_toast (n : Node) : bool :=
  has_class "fixed" (nodeClass n) && has_class "top-4" (nodeClass n).

Definition handler (e : Event) : Js Client unit :=
  match e with
  | ClickStart => startExam
  | StartSettled p => startExam_settled p
  | ClickStop => stopExam
  | StopSettled p => stopExam_settled p
  | VisibilityChange h => onVisibilityChange h
  | TabSwitchedSettled p => tabSwitched_settled p
  | ScoreTimer => pollScore
  | ScoreSettled ch p => pollScore_settled ch p
  | PulseTimer => pulseTimer
  | AlertTimer => pollAlert
  | AlertSettled p => pollAlert_settled p
  | ToastExpired => modify_doc (fun d => set_body (remove_first is_toast (body d)) d)
  end.

Definition step (c : Client) (e : Event) : Client := exec (handler e) c.

Definition run (es : list Event) (c : Client) : Client := fold_left step es c.

(** The page as loaded: the flag is [false], nothing requested yet. *)
Definition initial (d : Document) : Client := mkClient false d [] 0.

(** The status badge as displayed. *)
Definition displayedStatus (c : Client) : option StatusElement :=
  examStatus (doc c).

End Exam.

(** ** frontend/enhanced_features.js *)

Module Enhanced.
Import Exam.

Definition url_verify_quick := "/api/face_recognition/verify_quick".
Definition url_alert_statistics := "/api/alerts/statistics".

(** The promise made by [new Promise((resolve, reject) => ...)]: pending
    until the first call of [resolve] or [reject]; later calls are
    ignored. *)
Definition Promise : Type := option (settled bool).

Definition resolve (v : bool) : Js (Client * Promise) unit :=
  modify (fun s =>
    (fst s, match snd s with
            | None => Some (Fulfilled v)
            | Some r => Some r
            end)).

(** The executor of [verifyFaceBeforeExam] receives [reject] and never
    calls it. *)
Definition reject : Js (Client * Promise) unit :=
  modify (fun s =>
    (fst s, match snd s with
            | None => Some Rejected
            | Some r => Some r
            end)).

(** A statement on the client, run inside the executor. *)
Definition lift {A} (m : Js Client A) : Js (Client * Promise) A :=
  fun s => let (c', r) := m (fst s) in ((c', snd s), r).

(** [data.verification] of the verification response. *)
Record Verification : Type := mkVerification {
  verified : jsval;
  v_message : jsval
}.

(** The parsed body of [/api/face_recognition/verify_quick]; a missing
    or [null] [verification] is [None]. *)
Record VerifyData : Type := mkVerifyData {
  v_status : jsval;
  verification : option Verification
}.

(** The executor of [verifyFaceBeforeExam], up to the point where it
    returns: a toast and the request. *)
Definition verifyFaceBeforeExam : Js (Client * Promise) unit :=
  lift (showNotification (JStr "Verifying face identity...") "info") ;;
  lift (fetch (POST url_verify_quick)).

(** The [.then(res => res.json()).then(data => ...).catch(err => ...)]
    chain inside the executor. *)
Definition verifyFace_settled (p : settled (settled VerifyData))
  : Js (Client * Promise) unit :=
  then_catch (json p)
    (fun data =>
       if strict_eq_str (v_status data) "success" then
         match verification data with
         | None => throw
         | Some v =>
             if truthy (verified v) then
               lift (showNotification (v_message v) "success") ;;
               resolve true
             else
               lift (showNotification (v_message v) "error") ;;
               resolve false
         end
       else
         lift (showNotification (JStr "Face verification failed") "error") ;;
         resolve false)
    (lift console_error ;;
     lift (showNotification (JStr "Face verification error") "error") ;;
     resolve false).

(** The promise that [verifyFaceBeforeExam()] returned, after its request
    has settled with [p]. *)
Definition verifyFace_promise (p : settled (settled VerifyData)) (c : Client)
  : Client * Promise :=
  exec (verifyFaceBeforeExam ;; verifyFace_settled p) (c, None).

(** [startExamWithVerification] after its [await]: a rejected promise
    throws out of the async function. *)
Definition startExamWithVerification_resume (r : settled bool) : Js Client unit :=
  match r with
  | Rejected => throw
  | Fulfilled v =>
      if v then startExam
      else showNotification (JStr "Face verification failed. Exam not started.") "error"
  end.

(** The whole of [startExamWithVerification], for a verification request
    that settles with [p]; a promise left pending never resumes it. *)
Definition startExamWithVerification (p : settled (settled VerifyData))
  : Js Client unit :=
  fun c =>
    match verifyFace_promise p c with
    | (c1, Some r) => startExamWithVerification_resume r c1
    | (c1, None) => (c1, Normal tt)
    end.

(** [stats.by_severity] *)
Record BySeverity : Type := mkBySeverity {
  critical : jsval;
  warning : jsval;
  info : jsval
}.

(** The [statistics] object of the response; keys the script does not
    read are kept in [st_rest]. *)
Record Statistics : Type := mkStatistics {
  total_alerts : jsval;
  by_severity : option BySeverity;
  st_rest : list (string * jsval)
}.

(** [createStatsModal()]: hidden, with an empty [#statsContent]. *)
Definition createStatsModal : Node :=
  mkNode "statsModal"
    ["fixed"; "inset-0"; "bg-black"; "bg-opacity-50"; "flex"; "items-center";
     "justify-center"; "z-50"; "hidden"]
    (StatsPanel []).

Definition is_statsModal (n : Node) : bool := String.eqb (nodeId n) "statsModal".

(** The template written to [#statsContent]: four labelled values under
    the heading. *)
Definition statsCells (total : jsval) (sev : BySeverity) : list (string * jsval) :=
  [("Total Alerts", total);
   ("Critical Alerts", critical sev);
   ("Warning Alerts", warning sev);
   ("Info Alerts", info sev)].

(** [displayAlertStatistics(stats)]; [None] is an [undefined] argument.
    The wizard script carries the same function, word for word. *)
Definition displayAlertStatistics (stats : option Statistics) : Js Client unit :=
  found <- gets (fun c => getElementById "statsModal" (doc c)) ;;
  modal <- match found with
           | Some m => ret m
           | None => modify_doc (appendChild createStatsModal) ;; ret createStatsModal
           end ;;
  match nodeContent modal with
  | StatsPanel _ =>
      match stats with
      | None => throw
      | Some st =>
          match by_severity st with
          | None => throw
          | Some sev =>
              modify_doc (fun d =>
                set_body
                  (update_first is_statsModal
                     (fun n => mkNode (nodeId n) (nodeClass n)
                                 (StatsPanel (statsCells (total_alerts st) sev)))
                     (body d)) d)
          end
      end
  | _ => ret tt
  end ;;
  modify_doc (fun d =>
    set_body
      (update_first is_statsModal
         (fun n => mkNode (nodeId n) (classList_remove "hidden" (nodeClass n))
                     (nodeContent n))
         (body d)) d).

(** The parsed body of [/api/alerts/statistics]. *)
Record StatsData : Type := mkStatsData {
  s_status : jsval;
  statistics : option Statistics
}.

Definition showAlertStats : Js Client unit := fetch (GET url_alert_statistics).

Definition showAlertStats_settled (p : settled (settled StatsData))
  : Js Client unit :=
  then_catch (json p)
    (fun data =>
       if strict_eq_str (s_status data) "success"
       then displayAlertStatistics (statistics data)
       else ret tt)
    console_error.

End Enhanced.

(** ** The calibration wizard script

    The later revision of the enhanced-features script, which adds the
    rules modal and the calibration wizard. *)

Module Wizard.
Import Exam Enhanced.

Definition url_calibration_next := "/api/calibration/next".
Definition url_calibration_status := "/api/calibration/status".

(** [data.calibration] of the status response, as far as the modal
    reads it. *)
Record CalibrationStatus : Type := mkCalibrationStatus {
  c_title : jsval;
  c_instructions : option (list jsval);
  c_current_step_index : jsval
}.

(** [showCalibrationModal(calibration)]: one more overlay at the end of
    the body; [instructions.map] throws when the key is missing. *)
Definition showCalibrationModal (calibration : CalibrationStatus) : Js Client unit :=
  match c_instructions calibration with
  | None => throw
  | Some _ =>
      modify_doc (appendChild
        (mkNode ""
           ["fixed"; "inset-0"; "bg-black"; "bg-opacity-50"; "flex";
            "items-center"; "justify-center"; "z-50"]
           (WizardStep (c_current_step_index calibration))))
  end.

(** [showCalibrationStep()] *)
Definition showCalibrationStep : Js Client unit :=
  fetch (GET url_calibration_status).

(** [closeCalibrationModal()] *)
Definition closeCalibrationModal : Js Client unit :=
  modal <- gets (fun c => querySelector_overlay (doc c)) ;;
  match modal with
  | Some _ => modify_doc (fun d => set_body (remove_first is_overlay (body d)) d)
  | None => ret tt
  end.

(** [data.result] of the next-step response. *)
Record NextResult : Type := mkNextResult { r_status : jsval }.

Record NextData : Type := mkNextData {
  n_status : jsval;
  n_result : option NextResult
}.

(** [nextCalibrationStep()] *)
Definition nextCalibrationStep : Js Client unit :=
  fetch (POST url_calibration_next).

(** Its [.then(res => res.json()).then(data => ...).catch(err => ...)]. *)
Definition nextCalibrationStep_settled (p : settled (settled NextData))
  : Js Client unit :=
  then_catch (json p)
    (fun data =>
       if strict_eq_str (n_status data) "success" then
         match n_result data with
         | None => throw
         | Some result =>
             if strict_eq_str (r_status result) "completed" then
               showNotification (JStr "Calibration completed successfully!") "success" ;;
               closeCalibrationModal
             else
               showCalibrationStep
         end
       else ret tt)
    (console_error ;;
     showNotification (JStr "Failed to proceed to next step") "error").

End Wizard.

(** ** The signal-fusion core

    The backend that implements the core is not among the sources; the
    definitions of this module follow sections 3 and 4 of the
    specification. *)

Module Core.
Local Open Scope Q_scope.

(** Modelled from the spec: the event kinds of section 3 (the backend
    detectors are missing). *)
Inductive Kind : Type :=
| FaceMissing
| MultipleFaces
| HeadMovement
| BackgroundVoice
| TabSwitch.

(** Modelled from the spec: the severity tiers of section 3 (the
    backend alert engine is missing). *)
Inductive Severity : Type := Info | Warning | Critical.

(** Modelled from the spec: the session states of section 3 (the backend
    session controller is missing). *)
Inductive SessionState : Type := NotStarted | Running | Stopped.

Definition kind_eqb (a b : Kind) : bool :=
  match a, b with
  | FaceMissing, FaceMissing
  | MultipleFaces, MultipleFaces
  | HeadMovement, HeadMovement
  | BackgroundVoice, BackgroundVoice
  | TabSwitch, TabSwitch => true
  | _, _ => false
  end.

Definition severity_eqb (a b : Severity) : bool :=
  match a, b with
  | Info, Info | Warning, Warning | Critical, Critical => true
  | _, _ => false
  end.

(** Modelled from the spec: the [DetectionEvent] of section 3 (the
    detectors of the backend are missing); times are in seconds. *)
Record DetectionEvent : Type := mkEvent {
  kind : Kind;
  occurredAt : Q;
  weight : Q
}.

(** Modelled from the spec: the [ViolationCounter] entry of section 3;
    [windowStart] is the time from which the rolling window of the kind
    is measured (the backend tracker is missing). *)
Record ViolationCounter : Type := mkCounter {
  count : nat;
  windowStart : Q
}.

(** Modelled from the spec: the [Alert] of section 3 (the backend alert
    engine is missing). *)
Record Alert : Type := mkAlert {
  alertId : nat;
  alertKindName : string;
  severity : Severity;
  createdAt : Q;
  sourceKind : Kind;
  acknowledged : bool
}.

(** Modelled from the spec: the configuration constants of section 9
    (decay rate per second, window duration, per-kind cooldown); the
    backend constants are missing. *)
Record Config : Type := mkConfig {
  decayRate : Q;
  windowDuration : Q;
  cooldown : Kind -> Q
}.

(** Modelled from the spec: the one context object of section 9 that
    holds session, score, counters, cooldown stamps and the alert log
    (the backend state is missing). *)
Record State : Type := mkState {
  session : SessionState;
  startedAt : option Q;
  stoppedAt : option Q;
  score : Q;
  counters : Kind -> option ViolationCounter;
  lastAccepted : Kind -> option Q;
  alerts : list Alert
}.

(** The map [f] with the entry of [k] set to [v]. *)
Definition upd {A} (k : Kind) (v : A) (f : Kind -> A) : Kind -> A :=
  fun k' => if kind_eqb k' k then v else f k'.

(** Modelled from the spec: the session at process start, section 3
    (the backend initialisation is missing). *)
Definition init : State :=
  mkState NotStarted None None 0 (fun _ => None) (fun _ => None) [].

(** *** ScoreAggregator, section 4.2 *)

(** Modelled from the spec: clamping to [[0, 100]] (the backend score
    aggregator is missing). *)
Definition clamp (x : Q) : Q := Qmax 0 (Qmin 100 x).

(** Modelled from the spec: [applyEvent] adds the weight of the event,
    clamped (the backend score aggregator is missing). *)
Definition applyEvent (e : DetectionEvent) (s : Q) : Q := clamp (s + weight e).

(** Modelled from the spec: the decay [max(0, score - decayRate * dt)]
    of a tick after [dt] elapsed seconds (the backend score aggregator is
    missing). *)
Definition decay (cfg : Config) (dt : Q) (s : Q) : Q :=
  Qmax 0 (s - decayRate cfg * dt).

(** *** ViolationTracker, section 4.3 *)

(** Modelled from the spec: [recordAndCount] returns the count after the
    increment.  The window of a kind rolls: every event of the kind moves
    [windowStart] to its own time, so the window elapses only when
    [windowDuration] passes without an event of the kind, and the event
    after such a gap opens a fresh window with count 1 (the backend
    tracker is missing). *)
Definition recordAndCount (cfg : Config) (e : DetectionEvent)
    (cs : Kind -> option ViolationCounter)
  : (Kind -> option ViolationCounter) * nat :=
  let fresh := mkCounter 1 (occurredAt e) in
  let next :=
    match cs (kind e) with
    | Some ctr =>
        if Qle_bool (occurredAt e - windowStart ctr) (windowDuration cfg)
        then mkCounter (S (count ctr)) (occurredAt e)
        else fresh
    | None => fresh
    end in
  (upd (kind e) (Some next) cs, count next).

(** *** AlertEngine, section 4.4 *)

(** Modelled from the spec: the base severity per kind (the backend
    alert engine is missing). *)
Definition baseSeverity (k : Kind) : Severity :=
  match k with
  | MultipleFaces => Critical
  | FaceMissing | HeadMovement => Warning
  | BackgroundVoice | TabSwitch => Warning
  end.

(** Modelled from the spec: the escalation threshold, the third
    occurrence (the backend constant is missing). *)
Definition escalationThreshold : nat := 3.

(** Modelled from the spec: the severity of the alert for the [n]-th
    occurrence of a kind in its window (the backend alert engine is
    missing). *)
Definition severityFor (k : Kind) (n : nat) : Severity :=
  if (escalationThreshold <=? n)%nat then Critical else baseSeverity k.

(** The name of a kind, used as the text of its alerts. *)
Definition kindName (k : Kind) : string :=
  match k with
  | FaceMissing => "FaceMissing"
  | MultipleFaces => "MultipleFaces"
  | HeadMovement => "HeadMovement"
  | BackgroundVoice => "BackgroundVoice"
  | TabSwitch => "TabSwitch"
  end.

(** Modelled from the spec: [onViolation] makes exactly one new alert
    and appends it to the log; earlier alerts are untouched (the backend
    alert engine is missing). *)
Definition onViolation (e : DetectionEvent) (n : nat) (log : list Alert)
  : list Alert * Alert :=
  let a := mkAlert (S (length log)) (kindName (kind e)) (severityFor (kind e) n)
                   (occurredAt e) (kind e) false in
  (log ++ [a], a).

(** Modelled from the spec: the latest alert is the most recent
    unacknowledged one, or the most recent overall (the backend alert
    engine is missing). *)
Definition latestAlert (log : list Alert) : option Alert :=
  match find (fun a => negb (acknowledged a)) (rev log) with
  | Some a => Some a
  | None => hd_error (rev log)
  end.

(** Modelled from the spec: the number of alerts of one severity in
    the log (the backend alert engine is missing). *)
Definition countSeverity (s : Severity) (log : list Alert) : nat :=
  length (filter (fun a => severity_eqb (severity a) s) log).

(** Modelled from the spec: [statistics] counts the log by severity
    (the backend alert engine is missing). *)
Definition statistics (log : list Alert) : nat * (nat * nat * nat) :=
  (length log,
   (countSeverity Critical log, countSeverity Warning log, countSeverity Info log)).

(** *** EventBus, section 4.1 *)

(** Modelled from the spec: the result of [submit] (the backend event
    bus is missing). *)
Inductive SubmitResult : Type := Accepted | Suppressed | Rejected.

(** Modelled from the spec: an event is suppressed when one of its kind
    was accepted less than the cooldown of the kind ago (the backend
    event bus is missing). *)
Definition inCooldown (cfg : Config) (e : DetectionEvent) (last : option Q) : bool :=
  match last with
  | Some t => negb (Qle_bool (cooldown cfg (kind e)) (occurredAt e - t))
  | None => false
  end.

(** Modelled from the spec: [submit] rejects outside [Running],
    suppresses inside the cooldown, and otherwise forwards to the score
    aggregator, then the tracker, then the alert engine (the backend
    event bus is missing). *)
Definition submit (cfg : Config) (e : DetectionEvent) (st : State)
  : State * SubmitResult :=
  match session st with
  | Running =>
      if inCooldown cfg e (lastAccepted st (kind e)) then (st, Suppressed)
      else
        let s' := applyEvent e (score st) in
        let (cs', n) := recordAndCount cfg e (counters st) in
        let (log', _) := onViolation e n (alerts st) in
        (mkState Running (startedAt st) (stoppedAt st) s' cs'
                 (upd (kind e) (Some (occurredAt e)) (lastAccepted st)) log',
         Accepted)
  | _ => (st, Rejected)
  end.

(** Modelled from the spec: [tick] applies the decay under the same
    lock as the events (the backend timer is missing). *)
Definition tick (cfg : Config) (dt : Q) (st : State) : State :=
  mkState (session st) (startedAt st) (stoppedAt st) (decay cfg dt (score st))
          (counters st) (lastAccepted st) (alerts st).

(** *** SessionController, section 4.5 *)

(** Modelled from the spec: the errors of [start] and [stop], section 7
    (the backend session controller is missing). *)
Inductive SessionError : Type := AlreadyRunning | NotRunning | AcquisitionFailed.

(** Modelled from the spec: [start] is legal from [NotStarted] and
    [Stopped]; a failed acquisition hook rolls back to [NotStarted]
    (the backend session controller is missing). *)
Definition start (now : Q) (hookOk : bool) (st : State)
  : State * option SessionError :=
  match session st with
  | Running => (st, Some AlreadyRunning)
  | _ =>
      if hookOk then
        (mkState Running (Some now) (stoppedAt st) 0 (fun _ => None)
                 (lastAccepted st) (alerts st), None)
      else
        (mkState NotStarted (startedAt st) (stoppedAt st) (score st)
                 (counters st) (lastAccepted st) (alerts st),
         Some AcquisitionFailed)
  end.

(** Modelled from the spec: [stop] is legal from [Running] only and
    otherwise fails with [NotRunning] (the backend session controller is
    missing). *)
Definition stop (now : Q) (st : State) : State * option SessionError :=
  match session st with
  | Running =>
      (mkState Stopped (startedAt st) (Some now) (score st) (counters st)
               (lastAccepted st) (alerts st), None)
  | _ => (st, Some NotRunning)
  end.

(** Modelled from the spec: the operations of section 6 that change
    the core, in the order the lock of section 5 serves them (the backend
    routes are missing). *)
Inductive Op : Type :=
| OpStart (now : Q) (hookOk : bool)
| OpStop (now : Q)
| OpSubmit (e : DetectionEvent)
| OpTick (dt : Q).

(** Modelled from the spec: one operation applied to the core (the
    backend routes are missing). *)
Definition apply (cfg : Config) (st : State) (o : Op) : State :=
  match o with
  | OpStart now hookOk => fst (start now hookOk st)
  | OpStop now => fst (stop now st)
  | OpSubmit e => fst (submit cfg e st)
  | OpTick dt => tick cfg dt st
  end.

(** The states after each operation, in order: the observation points. *)
Fixpoint trace (cfg : Config) (os : list Op) (st : State) : list State :=
  match os with
  | [] => []
  | o :: os' => let st' := apply cfg st o in st' :: trace cfg os' st'
  end.

(** Elapsed time is never negative. *)
Fixpoint ticksForward (os : list Op) : Prop :=
  match os with
  | [] => True
  | OpTick dt :: os' => 0 <= dt /\ ticksForward os'
  | _ :: os' => ticksForward os'
  end.

(** The range of the suspicion score. *)
Definition inRange (s : Q) : Prop := 0 <= s /\ s <= 100.

(** *** CalibrationManager, section 4.6 *)

(** Modelled from the spec: the calibration steps of section 4.6 (the
    backend calibration module is missing). *)
Inductive Step : Type := CameraFraming | Lighting | MicrophoneLevel | FaceRegistration.

(** Modelled from the spec: the fixed ordered sequence of calibration
    steps (the backend calibration module is missing). *)
Definition calibrationSteps : list Step :=
  [CameraFraming; Lighting; MicrophoneLevel; FaceRegistration].

(** Modelled from the spec: the manager keeps the number of completed
    steps (the backend calibration module is missing). *)
Record Calibration : Type := mkCalibration { completedSteps : nat }.

(** Modelled from the spec: the result of [advance], the next step or
    completed (the backend calibration module is missing). *)
Inductive Advance : Type :=
| NextStep (s : Step)
| Completed.

(** Modelled from the spec: every step of the sequence is completed
    (the backend calibration module is missing). *)
Definition allCompleted (m : Calibration) : bool :=
  (length calibrationSteps <=? completedSteps m)%nat.

(** Modelled from the spec: [advance] completes the current step and
    returns the next one, or [Completed] after the last; past the last
    step it changes nothing and returns [Completed] (the backend
    calibration module is missing). *)
Definition advance (m : Calibration) : Calibration * Advance :=
  if allCompleted m then (m, Completed)
  else
    let m' := mkCalibration (S (completedSteps m)) in
    match nth_error calibrationSteps (completedSteps m') with
    | Some s => (m', NextStep s)
    | None => (m', Completed)
    end.

(** [n] calls of [advance] in a row: the final manager and the results,
    oldest first. *)
Fixpoint advances (n : nat) (m : Calibration) : Calibration * list Advance :=
  match n with
  | O => (m, [])
  | S n' =>
      let (m1, r) := advance m in
      let (m2, rs) := advances n' m1 in
      (m2, r :: rs)
  end.

(** Modelled from the spec: the transport binding of [advance], the
    body of the next-step response that the wizard script reads (the
    backend route is missing). *)
Definition advanceResponse (r : Advance) : Wizard.NextData :=
  Wizard.mkNextData (JStr "success")
    (Some (Wizard.mkNextResult
             (match r with
              | Completed => JStr "completed"
              | NextStep _ => JStr "next_step"
              end))).

End Core.

(** ** Runs of the core seen from one kind *)

Module CoreRuns.
Import Core.
Local Open Scope Q_scope.

(** The alerts raised for the kind [k]. *)
Definition ofKind (k : Kind) (a : Alert) : bool := kind_eqb (sourceKind a) k.

(** The number of events of kind [k] submitted in a run. *)
Fixpoint occurrences (k : Kind) (os : list Op) : nat :=
  match os with
  | [] => O
  | OpSubmit e :: os' =>
      if kind_eqb (kind e) k then S (occurrences k os') else occurrences k os'
  | _ :: os' => occurrences k os'
  end.

(** The run [os] stays inside one rolling window of the kind [k]: it is
    made of ticks, events of other kinds, and events of kind [k] each of
    which comes no later than [windowDuration] after the one before it
    and is not held back by the cooldown of the kind.  [prev] is the time
    of the occurrence before the run, if the window is open already, and
    [accepted] the time of the last accepted event of the kind.  A start
    or a stop ends the window. *)
Fixpoint inRollingWindow (cfg : Config) (k : Kind) (prev accepted : option Q)
    (os : list Op) : Prop :=
  match os with
  | [] => True
  | OpSubmit e :: os' =>
      if kind_eqb (kind e) k then
        match accepted with
        | Some t => cooldown cfg k <= occurredAt e - t
        | None => True
        end
        /\ match prev with
           | Some t => occurredAt e - t <= windowDuration cfg
           | None => True
           end
        /\ inRollingWindow cfg k (Some (occurredAt e)) (Some (occurredAt e)) os'
      else inRollingWindow cfg k prev accepted os'
  | OpTick _ :: os' => inRollingWindow cfg k prev accepted os'
  | _ => False
  end.

(** The tracker of [st] has counted [c] occurrences of [k] in the window
    that is open since [prev]; with no window open it has counted
    none. *)
Definition windowOpen (st : State) (k : Kind) (c : nat) (prev : option Q) : Prop :=
  match prev with
  | Some t => counters st k = Some (mkCounter c t)
  | None => counters st k = None /\ c = O
  end.

End CoreRuns.

(** ** Concrete pages and inputs used to exercise the statements *)

Module Sample.
Import Exam.

(** A page that carries every element the scripts look up. *)
Definition page : Document :=
  mkDocument
    (Some (mkStatus ["bg-gray-500"; "bg-opacity-80"; "rounded-lg"; "px-4"; "py-2"]
                    (Some "Not Started")))
    (Some (mkElement ["text-2xl"; "font-bold"; "text-white"] (JNum 0)))
    (Some (mkElement [] (JStr "")))
    (Some (mkElement ["hidden"] (JStr "")))
    (Some (mkElement [] (JStr "")))
    [].

(** The client right after the page has loaded. *)
Definition fresh : Client := initial page.

(** The client of a running exam. *)
Definition running : Client := run [ClickStart; StartSettled (Fulfilled (mkResponse true))] fresh.

(** The client after the exam was started and stopped again. *)
Definition stopped : Client :=
  run [ClickStop; StopSettled (Fulfilled (mkResponse true))] running.

(** Constants for the core: decay of one point per second, a window of
    60 seconds, cooldowns of 2 s for head movement, 5 s for background
    voice and 1 s otherwise. *)
Definition config : Core.Config :=
  Core.mkConfig 1%Q 60%Q
    (fun k =>
       match k with
       | Core.HeadMovement => 2%Q
       | Core.BackgroundVoice => 5%Q
       | _ => 1%Q
       end).

(** A session that starts at time 0, then sees events of kind [k] with
    weight 10 at the seconds 5, 10, 15 and 20. *)
Definition repeated (k : Core.Kind) : list Core.Op :=
  [Core.OpStart 0%Q true;
   Core.OpSubmit (Core.mkEvent k 5%Q 10%Q);
   Core.OpSubmit (Core.mkEvent k 10%Q 10%Q);
   Core.OpSubmit (Core.mkEvent k 15%Q 10%Q);
   Core.OpSubmit (Core.mkEvent k 20%Q 10%Q)].

(** Scenario 1 of section 8: a face missing three times, one second
    apart, weight 10 each. *)
Definition scenario1 : list Core.Op :=
  [Core.OpStart 0%Q true;
   Core.OpSubmit (Core.mkEvent Core.FaceMissing 1%Q 10%Q);
   Core.OpSubmit (Core.mkEvent Core.FaceMissing 2%Q 10%Q);
   Core.OpSubmit (Core.mkEvent Core.FaceMissing 3%Q 10%Q)].

(** A running session that sees a face missing at the seconds 10, 50
    and 90, each within 60 seconds of the one before, with a tab switch
    and a tick in between. *)
Definition spaced : list Core.Op :=
  [Core.OpSubmit (Core.mkEvent Core.FaceMissing 10%Q 10%Q);
   Core.OpSubmit (Core.mkEvent Core.TabSwitch 20%Q 5%Q);
   Core.OpSubmit (Core.mkEvent Core.FaceMissing 50%Q 10%Q);
   Core.OpTick 30%Q;
   Core.OpSubmit (Core.mkEvent Core.FaceMissing 90%Q 10%Q)].

(** A session with heavy events, decay ticks and a stop. *)
Definition busy : list Core.Op :=
  [Core.OpStart 0%Q true;
   Core.OpSubmit (Core.mkEvent Core.MultipleFaces 1%Q 70%Q);
   Core.OpSubmit (Core.mkEvent Core.FaceMissing 2%Q 60%Q);
   Core.OpTick 5%Q;
   Core.OpSubmit (Core.mkEvent Core.TabSwitch 8%Q (-200)%Q);
   Core.OpTick 500%Q;
   Core.OpStop 600%Q].

End Sample.

(** ** frontend/enhanced_features.js: closing the stats modal *)

Module StatsDialog.
Import Exam Enhanced.

(** [closeStatsModal()]: the modal stays in the document, hidden. *)
Definition closeStatsModal : Js Client unit :=
  modal <- gets (fun c => getElementById "statsModal" (doc c)) ;;
  match modal with
  | Some _ =>
      modify_doc (fun d =>
        set_body
          (update_first is_statsModal
             (fun n => mkNode (nodeId n) (classList_add "hidden" (nodeClass n))
                         (nodeContent n))
             (body d)) d)
  | None => ret tt
  end.

End StatsDialog.

(** ** The wizard script: the exam rules modal *)

Module Rules.
Import Exam.

(** The modal [showExamRules] builds.  Its markup is fixed text around the
    checkbox [#rulesAccepted] and the button [#acceptRulesBtn]; the state
    of the checkbox is read where it is used. *)
Definition rulesModal : Node :=
  mkNode ""
    ["fixed"; "inset-0"; "bg-black"; "bg-opacity-75"; "flex"; "items-center";
     "justify-center"; "z-50"]
    Other.

(** [showExamRules()]: the modal is appended; the [change] listener it
    installs only enables and disables the accept button. *)
Definition showExamRules : Js Client unit :=
  modify_doc (appendChild rulesModal).

(** [closeRulesModal()] *)
Definition closeRulesModal : Js Client unit :=
  modal <- gets (fun c => querySelector_overlay (doc c)) ;;
  match modal with
  | Some _ => modify_doc (fun d => set_body (remove_first is_overlay (body d)) d)
  | None => ret tt
  end.

(** [acceptRules()].  [checkbox] is what
    [document.getElementById('rulesAccepted')] finds: [None] when there is
    no such element (reading [checked] then throws), otherwise its
    [checked] flag. *)
Definition acceptRules (checkbox : option bool) : Js Client unit :=
  match checkbox with
  | None => throw
  | Some checked =>
      if negb checked then
        showNotification (JStr "Please accept the exam rules first") "error"
      else
        closeRulesModal ;;
        showNotification (JStr "Rules accepted! You can now start the exam.") "success"
  end.

End Rules.

(** ** The wizard script: starting the wizard, showing and testing a step *)

Module WizardSteps.
Import Exam Wizard.

Definition url_calibration_start := "/api/calibration/start".
Definition url_calibration_test := "/api/calibration/test".

(** The parsed body of [/api/calibration/start], as far as it is read. *)
Record StartData : Type := mkStartData { ws_status : jsval }.

(** [startCalibrationWizard()] up to its return. *)
Definition startCalibrationWizard : Js Client unit :=
  showNotification (JStr "Starting calibration wizard...") "info" ;;
  fetch (POST url_calibration_start).

(** Its promise chain.  The assignment [calibrationStep = 0] stores the
    value the variable has from its declaration on; no function reads
    the variable. *)
Definition startCalibrationWizard_settled (p : settled (settled StartData))
  : Js Client unit :=
  then_catch (json p)
    (fun data =>
       if strict_eq_str (ws_status data) "success" then showCalibrationStep
       else ret tt)
    (console_error ;;
     showNotification (JStr "Failed to start calibration") "error").

(** The parsed body of [/api/calibration/status]; a missing [calibration]
    key is [None]. *)
Record StatusData : Type := mkStatusData {
  sd_status : jsval;
  sd_calibration : option CalibrationStatus
}.

(** The promise chain of [showCalibrationStep]: reading [title] of a
    missing [calibration] throws. *)
Definition showCalibrationStep_settled (p : settled (settled StatusData))
  : Js Client unit :=
  then_catch (json p)
    (fun data =>
       if strict_eq_str (sd_status data) "success" then
         match sd_calibration data with
         | None => throw
         | Some calibration => showCalibrationModal calibration
         end
       else ret tt)
    console_error.

(** [data.test_results] of the test response. *)
Record TestResults : Type := mkTestResults {
  tr_message : jsval;
  tr_verified : jsval;
  tr_status : jsval;
  tr_recommendations : option (list jsval)
}.

(** The modal [showCalibrationResults] builds; what it prints of the
    results is not kept. *)
Definition resultsModal : Node :=
  mkNode ""
    ["fixed"; "inset-0"; "bg-black"; "bg-opacity-50"; "flex"; "items-center";
     "justify-center"; "z-50"]
    Other.

(** [showCalibrationResults(results)]; [None] is an [undefined]
    argument, on which reading [recommendations] throws. *)
Definition showCalibrationResults (results : option TestResults) : Js Client unit :=
  match results with
  | None => throw
  | Some _ => modify_doc (appendChild resultsModal)
  end.

(** [closeCalibrationResults()] *)
Definition closeCalibrationResults : Js Client unit :=
  modal <- gets (fun c => querySelector_overlay (doc c)) ;;
  match modal with
  | Some _ => modify_doc (fun d => set_body (remove_first is_overlay (body d)) d)
  | None => ret tt
  end.

(** The parsed body of [/api/calibration/test]. *)
Record TestData : Type := mkTestData {
  td_status : jsval;
  td_test_results : option TestResults
}.

(** [testCalibrationStep()] up to its return. *)
Definition testCalibrationStep : Js Client unit :=
  showNotification (JStr "Running calibration test...") "info" ;;
  fetch (POST url_calibration_test).

(** Its promise chain. *)
Definition testCalibrationStep_settled (p : settled (settled TestData))
  : Js Client unit :=
  then_catch (json p)
    (fun data =>
       if strict_eq_str (td_status data) "success" then
         showCalibrationResults (td_test_results data)
       else
         showNotification (JStr "Calibration test failed") "error")
    (console_error ;;
     showNotification (JStr "Calibration test error") "error").

End WizardSteps.

(** ** The wizard script: a walk through the wizard *)

Module WizardRun.
Import Exam Wizard WizardSteps.

(** The modal [showCalibrationModal] appends for a step. *)
Definition stepModal (cal : CalibrationStatus) : Node :=
  mkNode ""
    ["fixed"; "inset-0"; "bg-black"; "bg-opacity-50"; "flex"; "items-center";
     "justify-center"; "z-50"]
    (WizardStep (c_current_step_index cal)).

(** The status answer that carries the step [cal]. *)
Definition statusAnswer (cal : CalibrationStatus) : settled (settled StatusData) :=
  Fulfilled (Fulfilled (mkStatusData (JStr "success") (Some cal))).

(** The wizard is started and shows its first step: the call of
    [startCalibrationWizard], the answer to the start request, the
    answer to the status request. *)
Definition opened (first : CalibrationStatus) (c : Client) : Client :=
  exec (showCalibrationStep_settled (statusAnswer first))
    (exec (startCalibrationWizard_settled
             (Fulfilled (Fulfilled (mkStartData (JStr "success")))))
       (exec startCalibrationWizard c)).

(** One click on the Next button that leads to the step [cal]: the call
    of [nextCalibrationStep], its answer with the result [r], the answer
    to the status request. *)
Definition advanced (r : NextResult) (cal : CalibrationStatus) (c : Client) : Client :=
  exec (showCalibrationStep_settled (statusAnswer cal))
    (exec (nextCalibrationStep_settled
             (Fulfilled (Fulfilled (mkNextData (JStr "success") (Some r)))))
       (exec nextCalibrationStep c)).

(** The wizard walked from its first step through the steps [rest]. *)
Definition walked (r : NextResult) (first : CalibrationStatus)
    (rest : list CalibrationStatus) (c : Client) : Client :=
  fold_left (fun c0 cal => advanced r cal c0) rest (opened first c).

(** The click on the Next button whose answer is [data]. *)
Definition finished (data : NextData) (c : Client) : Client :=
  exec (nextCalibrationStep_settled (Fulfilled (Fulfilled data)))
    (exec nextCalibrationStep c).

(** The four steps of the calibration sequence, as status answers. *)
Definition cameraStep : CalibrationStatus :=
  mkCalibrationStatus (JStr "Camera Framing") (Some [JStr "Sit upright"]) (JNum 0).

Definition laterSteps : list CalibrationStatus :=
  [mkCalibrationStatus (JStr "Lighting") (Some [JStr "Face the light"]) (JNum 1);
   mkCalibrationStatus (JStr "Microphone Level") (Some [JStr "Speak normally"]) (JNum 2);
   mkCalibrationStatus (JStr "Face Registration") (Some [JStr "Look at the camera"])
     (JNum 3)].

End WizardRun.

(** ** frontend/enhanced_features.js: the enhanced alert panel *)

Module AlertPanel.
Import Exam.

(** The elements of the panel, each possibly missing from the page. *)
Record Widgets : Type := mkWidgets {
  enhancedAlertBox : option Element;
  enhancedAlertSeverity : option Element;
  enhancedAlertTime : option Element;
  enhancedAlertSection : option Element
}.

(** The client together with the panel. *)
Record Page : Type := mkPage {
  client : Client;
  widgets : Widgets
}.

(** A statement of the other scripts, run on the page. *)
Definition onClient {A} (m : Js Client A) : Js Page A :=
  fun p => let (c', r) := m (client p) in (mkPage c' (widgets p), r).

Definition modify_widgets (f : Widgets -> Widgets) : Js Page unit :=
  modify (fun p => mkPage (client p) (f (widgets p))).

Definition set_box (e : option Element) (w : Widgets) : Widgets :=
  mkWidgets e (enhancedAlertSeverity w) (enhancedAlertTime w) (enhancedAlertSection w).

Definition set_severity (e : option Element) (w : Widgets) : Widgets :=
  mkWidgets (enhancedAlertBox w) e (enhancedAlertTime w) (enhancedAlertSection w).

Definition set_time (e : option Element) (w : Widgets) : Widgets :=
  mkWidgets (enhancedAlertBox w) (enhancedAlertSeverity w) e (enhancedAlertSection w).

Definition set_section (e : option Element) (w : Widgets) : Widgets :=
  mkWidgets (enhancedAlertBox w) (enhancedAlertSeverity w) (enhancedAlertTime w) e.

Definition url_alerts_recent := "/api/alerts/recent?count=5".

(** The object literal [colorClasses] of [getSeverityColorClass]. *)
Definition severityClasses : list (string * string) :=
  [("critical", "text-red-400"); ("warning", "text-yellow-400");
   ("info", "text-blue-400")].

(** One entry of [data.alerts]; a [severity] that is not a string, on
    which [toUpperCase] cannot be called, is [None]. *)
Record RecentAlert : Type := mkRecentAlert {
  al_message : jsval;
  al_severity : option string;
  al_timestamp : jsval
}.

(** The parsed body of [/api/alerts/recent]; a missing [alerts] key is
    [None]. *)
Record RecentData : Type := mkRecentData {
  rd_status : jsval;
  rd_alerts : option (list RecentAlert)
}.

Section Platform.

(** [String.prototype.toUpperCase] *)
Variable toUpperCase : string -> string.

(** [new Date(t * 1000).toLocaleTimeString()] as a function of [t]. *)
Variable localeTime : jsval -> string.

(** What an object literal inherits.  For a name that [Object.prototype]
    has ([constructor], [toString], [__proto__], ...) the class tokens an
    element gets when that member is assigned to its [className]; [None]
    for every other name. *)
Variable prototypeClass : string -> option (list string).

(** [getSeverityColorClass(severity)], as the class tokens its result
    leaves on the element.  The lookup [colorClasses[severity]] finds the
    three own keys first, then what the literal inherits; only a name
    found in neither falls back on [text-gray-400]. *)
Definition getSeverityColorClass (severity : string) : list string :=
  match lookup severity severityClasses with
  | Some v => [v]
  | None =>
      match prototypeClass severity with
      | Some inherited => inherited
      | None => ["text-gray-400"]
      end
  end.

(** [updateEnhancedAlertSection(alert)] *)
Definition updateEnhancedAlertSection (alert : RecentAlert) : Js Page unit :=
  w <- gets widgets ;;
  match enhancedAlertBox w, enhancedAlertSeverity w, enhancedAlertTime w with
  | Some box, Some sev, Some time =>
      modify_widgets (set_box (Some (mkElement (className box) (al_message alert)))) ;;
      match al_severity alert with
      | None => throw
      | Some s =>
          modify_widgets
            (set_severity (Some (mkElement (className sev) (JStr (toUpperCase s))))) ;;
          modify_widgets
            (set_severity (Some (mkElement (getSeverityColorClass s)
                                           (JStr (toUpperCase s))))) ;;
          modify_widgets
            (set_time (Some (mkElement (className time)
                                       (JStr (localeTime (al_timestamp alert)))))) ;;
          match enhancedAlertSection w with
          | None => throw
          | Some section =>
              modify_widgets
                (set_section
                   (Some (mkElement
                            (classList_add "alert-slide"
                               (classList_remove "hidden" (className section)))
                            (innerText section))))
          end
      end
  | _, _, _ => ret tt
  end.

(** [updateEnhancedAlerts()] up to its return. *)
Definition updateEnhancedAlerts : Js Page unit :=
  onClient (fetch (GET url_alerts_recent)).

(** Its promise chain: [data.alerts.length] is read only for a status
    "success", and only [data.alerts[0]] is shown. *)
Definition updateEnhancedAlerts_settled (p : settled (settled RecentData))
  : Js Page unit :=
  then_catch (json p)
    (fun data =>
       if strict_eq_str (rd_status data) "success" then
         match rd_alerts data with
         | None => throw
         | Some [] => ret tt
         | Some (latestAlert :: _) => updateEnhancedAlertSection latestAlert
         end
       else ret tt)
    (onClient console_error).

End Platform.

(** [dismissAlert()] *)
Definition dismissAlert : Js Page unit :=
  w <- gets widgets ;;
  match enhancedAlertSection w with
  | Some section =>
      modify_widgets
        (set_section (Some (mkElement (classList_add "hidden" (className section))
                                      (innerText section))))
  | None => ret tt
  end.

(** [escalateAlert()] *)
Definition escalateAlert : Js Page unit :=
  onClient (showNotification (JStr "Alert escalated to administrator") "error") ;;
  dismissAlert.

(** Is the panel hidden? *)
Definition panelHidden (p : Page) : option bool :=
  match enhancedAlertSection (widgets p) with
  | Some section => Some (has_class "hidden" (className section))
  | None => None
  end.

End AlertPanel.

(** ** Concrete pages for the panel *)

Module SamplePanel.
Import AlertPanel.

(** A page with the whole panel, hidden as it is loaded. *)
Definition page : Page :=
  mkPage Sample.fresh
    (mkWidgets (Some (mkElement [] (JStr "")))
               (Some (mkElement [] (JStr "")))
               (Some (mkElement [] (JStr "")))
               (Some (mkElement ["hidden"] (JStr "")))).

(** Upper case of the three severities the backend sends. *)
Definition upper (s : string) : string :=
  if String.eqb s "critical" then "CRITICAL"
  else if String.eqb s "warning" then "WARNING"
  else if String.eqb s "info" then "INFO"
  else s.

(** A stand-in for the clock text. *)
Definition clock (t : jsval) : string := "12:00:00".

(** Two of the members an object literal inherits, as class tokens. *)
Definition inherited (name : string) : option (list string) :=
  if String.eqb name "constructor"
  then Some ["function"; "Object()"; "{"; "[native"; "code]"; "}"]
  else if String.eqb name "__proto__" then Some ["[object"; "Object]"]
  else None.

End SamplePanel.

(** * Properties of the client *)

Section ListFacts.

Lemma skipn_length_app {A} (l x : list A) : skipn (length l) (l ++ x) = x.
Proof. induction l as [|a l IH]; simpl; auto. Qed.

Lemma has_class_app (t : string) (l1 l2 : list string) :
  has_class t (l1 ++ l2) = has_class t l1 || has_class t l2.
Proof. unfold has_class. apply existsb_app. Qed.

Lemma has_class_add_same (t : string) (cls : list string) :
  has_class t (classList_add t cls) = true.
Proof.
  unfold classList_add. destruct (has_class t cls) eqn:E; auto.
  rewrite has_class_app, E. simpl. now rewrite String.eqb_refl.
Qed.

Lemma has_class_add_other (t u : string) (cls : list string) :
  String.eqb t u = false ->
  has_class t (classList_add u cls) = has_class t cls.
Proof.
  intros H. unfold classList_add. destruct (has_class u cls); auto.
  rewrite has_class_app. simpl. rewrite H. now rewrite !orb_false_r.
Qed.

Lemma has_class_remove_same (t : string) (cls : list string) :
  has_class t (classList_remove t cls) = false.
Proof.
  unfold has_class, classList_remove.
  induction cls as [|a cls IH]; simpl; auto.
  destruct (String.eqb t a) eqn:E; simpl; auto. now rewrite E.
Qed.

Lemma remove_first_app_keep (p : Node -> bool) (l : list Node) (n : Node) :
  p n = false -> remove_first p (l ++ [n]) = remove_first p l ++ [n].
Proof.
  intros H. induction l as [|a l IH]; simpl.
  - now rewrite H.
  - destruct (p a); auto. now rewrite IH.
Qed.

Lemma remove_first_none (p : Node -> bool) (l : list Node) :
  find p l = None -> remove_first p l = l.
Proof.
  induction l as [|a l IH]; simpl; auto.
  destruct (p a); [discriminate | intros H; now rewrite IH].
Qed.

Lemma filter_remove_first (p : Node -> bool) (l : list Node) :
  filter p (remove_first p l) = tl (filter p l).
Proof.
  induction l as [|a l IH]; simpl; auto.
  destruct (p a) eqn:E; simpl; auto. now rewrite E.
Qed.

Lemma find_app_none (p : Node -> bool) (l : list Node) (n : Node) :
  find p l = None -> find p (l ++ [n]) = if p n then Some n else None.
Proof.
  induction l as [|a l IH]; simpl; auto.
  destruct (p a); [discriminate | auto].
Qed.

Lemma find_update_first (p : Node -> bool) (f : Node -> Node) (l : list Node) :
  (forall n, p (f n) = p n) ->
  find p (update_first p f l) = option_map f (find p l).
Proof.
  intros Hf. induction l as [|a l IH]; simpl; auto.
  destruct (p a) eqn:E; simpl.
  - now rewrite Hf, E.
  - now rewrite E.
Qed.

End ListFacts.

Lemma strict_eq_str_true (v : jsval) (s : string) :
  strict_eq_str v s = true <-> v = JStr s.
Proof.
  destruct v; simpl; split; try discriminate; intros H.
  - apply String.eqb_eq in H. now subst.
  - injection H as ->. apply String.eqb_refl.
Qed.

Section ExamFacts.
Import Exam.

(** A toast is not matched by [.fixed.inset-0]. *)
Lemma toast_not_overlay (m : jsval) (type : string) : is_overlay (toast m type) = false.
Proof.
  unfold is_overlay, toast, notificationColor. simpl.
  destruct (String.eqb type "success"); [reflexivity|].
  destruct (String.eqb type "error"); reflexivity.
Qed.

(** What [updateExamStatus] leaves alone. *)
Lemma updateExamStatus_frame (text color : string) (c : Client) :
  let c' := exec (updateExamStatus text color) c in
  examRunning c' = examRunning c /\ requests c' = requests c /\
  consoleErrors c' = consoleErrors c /\ body (doc c') = body (doc c).
Proof.
  unfold exec, updateExamStatus, bind, gets, modify_doc, modify, throw, ret.
  destruct c as [r d q n]. destruct d as [es sc ab asn at_ b]. simpl.
  destruct es as [[cls [sp|]]|]; simpl; auto.
Qed.

End ExamFacts.

Section StopAndTabSwitch.
Import Exam.

(** C1.  [stopExam] called while [examRunning] is false reports the
    error as a toast and returns: no [/stop_exam] request (no request at
    all) is issued, [examRunning], the status badge and the console are
    as before, and nothing is thrown.  The whole effect of the call is
    the one error toast. *)
Theorem stopExam_when_not_running (c : Client) :
  examRunning c = false ->
  let c' := exec stopExam c in
  c' = set_doc (appendChild
                  (toast (JStr "Cannot stop exam - exam is not started yet!") "error")
                  (doc c)) c
  /\ requests c' = requests c
  /\ ~ In (GET url_stop_exam) (skipn (length (requests c)) (requests c'))
  /\ examRunning c' = false
  /\ displayedStatus c' = displayedStatus c
  /\ consoleErrors c' = consoleErrors c
  /\ threw stopExam c = false.
Proof.
  intros H. unfold exec, threw, stopExam, bind, gets. simpl. rewrite H. simpl.
  repeat split; auto.
  destruct c as [r d q n]; simpl. clear H.
  induction q as [|a q IH]; simpl; auto.
Qed.

(** The statement of C1 at the freshly loaded page (never started) and at
    a page whose exam was started and stopped. *)
Lemma stopExam_when_not_running_witness :
  (examRunning Sample.fresh = false /\ requests (exec stopExam Sample.fresh) = [])
  /\ (examRunning Sample.stopped = false
      /\ requests (exec stopExam Sample.stopped) = requests Sample.stopped).
Proof.
  split.
  - split; [reflexivity|].
    exact (proj1 (proj2 (stopExam_when_not_running Sample.fresh eq_refl))).
  - split; [reflexivity|].
    exact (proj1 (proj2 (stopExam_when_not_running Sample.stopped eq_refl))).
Defined.

(** The requests a step adds to the log. *)
Lemma step_requests (c : Client) (e : Event) :
  requests (step c e) =
  requests c ++
    match e with
    | ClickStart => [GET url_start_exam]
    | ClickStop => if examRunning c then [GET url_stop_exam] else []
    | VisibilityChange h => if h && examRunning c then [POST url_tab_switched] else []
    | ScoreTimer => [GET url_suspicion_score]
    | AlertTimer => [GET url_latest_alert]
    | _ => []
    end.
Proof.
  destruct c as [r d q n]. destruct d as [es sc ab asn at_ b].
  destruct e as [ |p| |p|h|p| |ch p| | |p| ]; unfold step, exec; simpl;
    try reflexivity; try (now rewrite app_nil_r).
  - destruct p as [[[|]]|]; simpl; try (now rewrite app_nil_r).
    destruct es as [[cls [sp|]]|]; simpl; now rewrite app_nil_r.
  - destruct r; simpl; [reflexivity | now rewrite app_nil_r].
  - destruct p as [res|]; simpl; try (now rewrite app_nil_r).
    destruct es as [[cls [sp|]]|]; simpl; now rewrite app_nil_r.
  - destruct h, r; simpl; try reflexivity; now rewrite app_nil_r.
  - destruct p; simpl; now rewrite app_nil_r.
  - destruct p as [[data|]|]; simpl; try (now rewrite app_nil_r).
    destruct sc; simpl; now rewrite app_nil_r.
  - destruct sc; simpl; now rewrite app_nil_r.
  - destruct p as [[data|]|]; simpl; try (now rewrite app_nil_r).
    destruct ab, asn; simpl; try (now rewrite app_nil_r).
    unfold pollAlert_settled, json, then_catch, try_catch, onAlertData, bind, gets;
      simpl.
    destruct (truthy _); simpl; try (now rewrite app_nil_r).
    destruct at_; simpl; now rewrite app_nil_r.
Qed.

(** The requests issued by the step [e] taken from [c]. *)
Lemma issued_by_step (c : Client) (e : Event) :
  skipn (length (requests c)) (requests (step c e)) =
    match e with
    | ClickStart => [GET url_start_exam]
    | ClickStop => if examRunning c then [GET url_stop_exam] else []
    | VisibilityChange h => if h && examRunning c then [POST url_tab_switched] else []
    | ScoreTimer => [GET url_suspicion_score]
    | AlertTimer => [GET url_latest_alert]
    | _ => []
    end.
Proof. rewrite step_requests. apply skipn_length_app. Qed.

(** C2.  A step of the client submits [POST /tab_switched] exactly when
    it is a [visibilitychange] event with the document hidden and
    [examRunning] true.  A [visibilitychange] event in any other
    situation leaves the client exactly as it was, so no later step can
    tell that it happened: nothing was queued and nothing is submitted
    for it afterwards. *)
Theorem tab_switch_submitted_iff_hidden_and_running (c : Client) (e : Event) :
  (In (POST url_tab_switched) (skipn (length (requests c)) (requests (step c e)))
   <-> e = VisibilityChange true /\ examRunning c = true)
  /\ (forall h, h && examRunning c = false ->
        step c (VisibilityChange h) = c
        /\ forall later, run later (step c (VisibilityChange h)) = run later c).
Proof.
  split.
  - rewrite issued_by_step. split.
    + destruct e as [ |p| |p|h|p| |ch p| | |p| ]; simpl; try tauto;
        try (intros [H|[]]; discriminate).
      * destruct (examRunning c); simpl; [intros [H|[]]; discriminate | tauto].
      * destruct h, (examRunning c); simpl; tauto.
    + intros [-> ->]. simpl. auto.
  - intros h H.
    assert (E : step c (VisibilityChange h) = c).
    { unfold step, exec, handler, onVisibilityChange, bind, gets. simpl.
      rewrite H. reflexivity. }
    split; [exact E|]. intros later. now rewrite E.
Qed.

(** The statement of C2 at a stopped exam: hiding the tab changes
    nothing, and the same event during the exam is submitted. *)
Lemma tab_switch_submitted_iff_hidden_and_running_witness :
  step Sample.stopped (VisibilityChange true) = Sample.stopped
  /\ In (POST url_tab_switched)
        (skipn (length (requests Sample.running))
               (requests (step Sample.running (VisibilityChange true)))).
Proof.
  split.
  - exact (proj1 (proj2 (tab_switch_submitted_iff_hidden_and_running
                           Sample.stopped ClickStart) true eq_refl)).
  - apply (proj1 (tab_switch_submitted_iff_hidden_and_running
                    Sample.running (VisibilityChange true))).
    split; reflexivity.
Defined.

End StopAndTabSwitch.

Section StartAndPolls.
Import Exam.

Ltac js_run :=
  unfold step, exec, threw, handler, startExam_settled, stopExam_settled,
    pollScore_settled, pollAlert_settled, pulseTimer, onScoreData, onAlertData, json,
    updateExamStatus, showNotification, console_error, fetch, modify_doc,
    then_catch, try_catch, bind, gets, modify, ret, throw;
  simpl.

(** C5.  [examRunning] becomes true, and the badge reads "Exam Running",
    only when the [/start_exam] response is ok.  On a response that is
    not ok and on a network error the flag, the badge and the request log
    are as before and an error toast tells the user; clicking start
    again issues the request again. *)
Theorem startExam_running_only_when_ok (c : Client) (p : settled Response) :
  let c' := step c (StartSettled p) in
  (* a response that is ok starts the exam *)
  (forall res, p = Fulfilled res -> ok res = true ->
     examRunning c' = true
     /\ (forall el text, displayedStatus c = Some el -> statusSpan el = Some text ->
           displayedStatus c' =
             Some (mkStatus ["bg-green-500"; "bg-opacity-80"; "rounded-lg"; "px-4"; "py-2"]
                            (Some "Exam Running"))))
  (* a response that is not ok *)
  /\ (forall res, p = Fulfilled res -> ok res = false ->
        examRunning c' = examRunning c
        /\ displayedStatus c' = displayedStatus c
        /\ requests c' = requests c
        /\ body (doc c') = body (doc c) ++ [toast (JStr "Failed to start exam") "error"])
  (* a network error *)
  /\ (p = Rejected ->
        examRunning c' = examRunning c
        /\ displayedStatus c' = displayedStatus c
        /\ requests c' = requests c
        /\ body (doc c') = body (doc c) ++ [toast (JStr "Backend not reachable") "error"])
  (* only an ok response turns the flag on or changes the badge *)
  /\ (examRunning c' = true ->
        examRunning c = true \/ exists res, p = Fulfilled res /\ ok res = true)
  /\ (displayedStatus c' <> displayedStatus c ->
        exists res, p = Fulfilled res /\ ok res = true)
  (* a retry is possible *)
  /\ requests (step c' ClickStart) = requests c ++ [GET url_start_exam].
Proof.
  destruct c as [r d q n]. destruct d as [es sc ab asn at_ b].
  destruct p as [[[|]]|]; js_run.
  - destruct es as [[cls [sp|]]|]; simpl;
      (split; [intros res _ _; split; [reflexivity|]; intros el text E1 E2;
                 try discriminate; try (injection E1 as <-; simpl in E2; discriminate);
                 reflexivity |]);
      (split; [intros res E; injection E as <-; discriminate|]);
      (split; [discriminate|]);
      (split; [intros _; right; eexists; split; reflexivity|]);
      (split; [intros _; eexists; split; reflexivity|]);
      reflexivity.
  - split; [intros res E; injection E as <-; discriminate|].
    split; [intros res _ _; repeat split; reflexivity|].
    split; [discriminate|].
    split; [intros ->; now left|].
    split; [intros H; now elim H|].
    reflexivity.
  - split; [discriminate|].
    split; [discriminate|].
    split; [intros _; repeat split; reflexivity|].
    split; [intros ->; now left|].
    split; [intros H; now elim H|].
    reflexivity.
Qed.

(** The statement of C5 at the freshly loaded page, for a refused start
    and for an unreachable backend. *)
Lemma startExam_running_only_when_ok_witness :
  examRunning (step Sample.fresh (StartSettled (Fulfilled (mkResponse false)))) = false
  /\ examRunning (step Sample.fresh (StartSettled Rejected)) = false
  /\ examRunning (step Sample.fresh (StartSettled (Fulfilled (mkResponse true)))) = true.
Proof.
  split; [|split].
  - exact (proj1 (proj1 (proj2 (startExam_running_only_when_ok Sample.fresh
                                  (Fulfilled (mkResponse false))))
                    (mkResponse false) eq_refl eq_refl)).
  - exact (proj1 (proj1 (proj2 (proj2 (startExam_running_only_when_ok Sample.fresh
                                         Rejected)))
                    eq_refl)).
  - exact (proj1 (proj1 (startExam_running_only_when_ok Sample.fresh
                           (Fulfilled (mkResponse true)))
                    (mkResponse true) eq_refl eq_refl)).
Defined.

(** The alert section is hidden after the callback exactly when the
    message the script computes, [data.message || data.alert || ""], is
    falsy. *)
Lemma onAlertData_hidden (c : Client) (data : AlertData) (box section : Element) :
  alertBox (doc c) = Some box ->
  alertSection (doc c) = Some section ->
  exists section',
    alertSection (doc (exec (onAlertData data) c)) = Some section'
    /\ has_class "hidden" (className section')
       = negb (truthy (jsor (jsor (a_message data) (a_alert data)) (JStr ""))).
Proof.
  destruct c as [r d q n]. destruct d as [es sc ab asn at_ b]. simpl.
  intros -> ->. js_run.
  destruct (truthy (jsor (jsor (a_message data) (a_alert data)) (JStr ""))) eqn:E; simpl.
  - destruct at_; simpl; eexists; (split; [reflexivity|]); simpl;
      rewrite has_class_add_other by reflexivity; apply has_class_remove_same.
  - eexists; split; [reflexivity|]. simpl. apply has_class_add_same.
Qed.

(** A response that carries its text under the key [alert] is shown as
    well. *)
Example onAlertData_alert_key :
  let data := mkAlertData JUndefined (JStr "Multiple faces detected") JUndefined JUndefined in
  let c' := exec (onAlertData data) Sample.fresh in
  alertBox (doc c') = Some (mkElement [] (JStr "Multiple faces detected"))
  /\ alertSection (doc c') = Some (mkElement ["alert-slide"] (JStr "")).
Proof. split; reflexivity. Qed.




(** The timer that ends the pulse leaves the colour class in place. *)
Lemma pulseTimer_keeps_color (c : Client) (q : Q) (v : jsval) :
  scoreEl (doc c) = Some (mkElement (scoreClass q) v) ->
  scoreEl (doc (step c PulseTimer)) = Some (mkElement (scoreClass q) v).
Proof.
  destruct c as [r d rq n]. destruct d as [es sc ab asn at_ b]. simpl.
  intros ->. js_run. unfold scoreClass.
  destruct (Qle_bool 50 q); [reflexivity|].
  destruct (Qle_bool 25 q); reflexivity.
Qed.


End StartAndPolls.

Section EnhancedFeatures.
Import Exam Enhanced.

Ltac js_unfold :=
  unfold exec, threw, verifyFace_promise, verifyFaceBeforeExam, verifyFace_settled,
    startExamWithVerification, startExamWithVerification_resume, startExam,
    resolve, reject, lift, json,
    showNotification, console_error, fetch, modify_doc,
    then_catch, try_catch, bind, gets, modify, ret, throw.

(** The value with which the promise of [verifyFaceBeforeExam] settles:
    it is always fulfilled, with [true] only for a parsed body whose
    status is "success" and whose verification is verified. *)
Lemma verifyFace_promise_value (c : Client) (p : settled (settled VerifyData)) :
  snd (verifyFace_promise p c) =
    Some (Fulfilled
            match p with
            | Fulfilled (Fulfilled data) =>
                strict_eq_str (v_status data) "success"
                && match verification data with
                   | Some v => truthy (verified v)
                   | None => false
                   end
            | _ => false
            end).
Proof.
  destruct p as [[data|]|]; js_unfold; simpl; try reflexivity.
  destruct (strict_eq_str (v_status data) "success"); simpl; try reflexivity.
  destruct (verification data) as [v|]; simpl; try reflexivity.
  destruct (truthy (verified v)); reflexivity.
Qed.

(** The requests of the verification call itself. *)
Lemma verifyFace_promise_requests (c : Client) (p : settled (settled VerifyData)) :
  requests (fst (verifyFace_promise p c)) = requests c ++ [POST url_verify_quick]
  /\ examRunning (fst (verifyFace_promise p c)) = examRunning c.
Proof.
  destruct p as [[data|]|]; js_unfold; simpl; auto.
  destruct (strict_eq_str (v_status data) "success"); simpl; auto.
  destruct (verification data) as [v|]; simpl; auto.
  destruct (truthy (verified v)); simpl; auto.
Qed.

(** C10.  The promise of [verifyFaceBeforeExam] is fulfilled whatever
    happens to the request, never rejected and never left pending; it is
    fulfilled with [true] exactly when the body was parsed, its status is
    "success" and its verification is verified, hence with [false] on a
    network error, an unparsable body, another status, a missing or an
    unverified verification.  [startExamWithVerification] issues the
    [/start_exam] request of [startExam] exactly when the promise was
    fulfilled with [true], and does not throw. *)
Theorem verifyFace_never_rejects_and_gates_start
    (c : Client) (p : settled (settled VerifyData)) :
  exists b : bool,
    snd (verifyFace_promise p c) = Some (Fulfilled b)
    /\ (b = true <->
        exists data v,
          p = Fulfilled (Fulfilled data)
          /\ v_status data = JStr "success"
          /\ verification data = Some v
          /\ truthy (verified v) = true)
    /\ (forall c1, exec (startExamWithVerification_resume (Fulfilled b)) c1
                   = if b then exec startExam c1
                     else exec (showNotification
                                  (JStr "Face verification failed. Exam not started.")
                                  "error") c1)
    /\ (In (GET url_start_exam)
           (skipn (length (requests c)) (requests (exec (startExamWithVerification p) c)))
        <-> b = true)
    /\ examRunning (exec (startExamWithVerification p) c) = examRunning c
    /\ threw (startExamWithVerification p) c = false.
Proof.
  pose proof (verifyFace_promise_value c p) as Hv.
  pose proof (verifyFace_promise_requests c p) as [Hr He].
  eexists. split; [exact Hv|].
  split.
  { split.
    - destruct p as [[data|]|]; try discriminate.
      intros H. apply andb_true_iff in H. destruct H as [H1 H2].
      destruct (verification data) as [v|] eqn:Ev; try discriminate.
      exists data, v. repeat split; auto. now apply strict_eq_str_true.
    - intros [data [v [-> [H1 [H2 H3]]]]]. rewrite H1, H2, H3. reflexivity. }
  split.
  { intros c1. simpl. destruct (match p with Fulfilled (Fulfilled _) => _ | _ => _ end);
      reflexivity. }
  unfold startExamWithVerification, exec, threw.
  destruct (verifyFace_promise p c) as [c1 pr] eqn:E. simpl in Hv, Hr, He. subst pr.
  destruct (match p with Fulfilled (Fulfilled _) => _ | _ => _ end) eqn:Eb;
    unfold startExamWithVerification_resume, startExam, showNotification, fetch,
      modify_doc, modify; simpl; rewrite Hr.
  - rewrite <- app_assoc, skipn_length_app.
    split; [|split; [exact He | reflexivity]].
    split; [reflexivity|]. intros _. simpl. auto.
  - rewrite skipn_length_app.
    split; [|split; [exact He | reflexivity]].
    split; [|discriminate]. intros [H|[]]. discriminate.
Qed.

(** The statement of C10 for an unreachable backend and for a verified
    face, on the sample page. *)
Lemma verifyFace_never_rejects_and_gates_start_witness :
  (exists b, snd (verifyFace_promise Rejected Sample.fresh) = Some (Fulfilled b))
  /\ (exists b,
        snd (verifyFace_promise
               (Fulfilled (Fulfilled
                  (mkVerifyData (JStr "success")
                     (Some (mkVerification (JBool true) (JStr "Welcome"))))))
               Sample.fresh) = Some (Fulfilled b)).
Proof.
  split.
  - destruct (verifyFace_never_rejects_and_gates_start Sample.fresh Rejected)
      as [b [E _]].
    exists b. exact E.
  - destruct (verifyFace_never_rejects_and_gates_start Sample.fresh
                (Fulfilled (Fulfilled
                   (mkVerifyData (JStr "success")
                      (Some (mkVerification (JBool true) (JStr "Welcome")))))))
      as [b [E _]].
    exists b. exact E.
Defined.

(** C7.  On a page whose stats modal, if it is there already, is the one
    [createStatsModal] builds, [displayAlertStatistics] leaves the modal
    visible with exactly four labelled values in its content: the total,
    and the critical, warning and info counts of [by_severity].  No other
    key of the response is read; the call issues no request, leaves
    [examRunning] and the console untouched, and does not throw. *)
Theorem displayAlertStatistics_renders_four_fields
    (c : Client) (st : Statistics) (sev : BySeverity) :
  by_severity st = Some sev ->
  (forall m, getElementById "statsModal" (doc c) = Some m ->
             exists cells, nodeContent m = StatsPanel cells) ->
  let c' := exec (displayAlertStatistics (Some st)) c in
  (exists m',
     getElementById "statsModal" (doc c') = Some m'
     /\ nodeContent m' =
          StatsPanel [("Total Alerts", total_alerts st);
                      ("Critical Alerts", critical sev);
                      ("Warning Alerts", warning sev);
                      ("Info Alerts", info sev)]
     /\ has_class "hidden" (nodeClass m') = false)
  /\ (forall st2, total_alerts st2 = total_alerts st -> by_severity st2 = Some sev ->
        exec (displayAlertStatistics (Some st2)) c = c')
  /\ requests c' = requests c
  /\ examRunning c' = examRunning c
  /\ consoleErrors c' = consoleErrors c
  /\ threw (displayAlertStatistics (Some st)) c = false.
Proof.
  intros Hsev Hmodal.
  assert (Hid1 : forall n cells, is_statsModal
            (mkNode (nodeId n) (nodeClass n) (StatsPanel cells)) = is_statsModal n)
    by reflexivity.
  assert (Hid2 : forall n, is_statsModal
            (mkNode (nodeId n) (classList_remove "hidden" (nodeClass n)) (nodeContent n))
            = is_statsModal n)
    by reflexivity.
  destruct c as [r d q n]. destruct d as [es sc ab asn at_ b].
  unfold getElementById in *. simpl in Hmodal.
  unfold exec, threw, displayAlertStatistics, bind, gets, ret, modify_doc, modify,
    getElementById, appendChild. simpl.
  change (fun n0 : Node => String.eqb (nodeId n0) "statsModal") with is_statsModal in *.
  destruct (find is_statsModal b) as [m|] eqn:Ef; simpl.
  - destruct (Hmodal m eq_refl) as [cells Hc]. rewrite Hc, Hsev. simpl.
    split.
    { rewrite !find_update_first by (intros; reflexivity). rewrite Ef. simpl.
      eexists. split; [reflexivity|]. simpl. split; [reflexivity|].
      apply has_class_remove_same. }
    split; [|repeat split; reflexivity].
    intros st2 Ht Hs. rewrite Hs, Ht. reflexivity.
  - rewrite Hsev. simpl.
    split.
    { rewrite !find_update_first by (intros; reflexivity).
      rewrite find_app_none by exact Ef. simpl.
      eexists. split; [reflexivity|]. simpl. split; reflexivity. }
    split; [|repeat split; reflexivity].
    intros st2 Ht Hs. rewrite Hs, Ht. reflexivity.
Qed.

(** The statement of C7 on the sample page, for the counts 7, 2, 4, 1. *)
Lemma displayAlertStatistics_renders_four_fields_witness :
  exists m',
    getElementById "statsModal"
      (doc (exec (displayAlertStatistics
                    (Some (mkStatistics (JNum 7)
                             (Some (mkBySeverity (JNum 2) (JNum 4) (JNum 1))) [])))
                 Sample.fresh)) = Some m'
    /\ nodeContent m' =
         StatsPanel [("Total Alerts", JNum 7); ("Critical Alerts", JNum 2);
                     ("Warning Alerts", JNum 4); ("Info Alerts", JNum 1)]
    /\ has_class "hidden" (nodeClass m') = false.
Proof.
  refine (proj1 (displayAlertStatistics_renders_four_fields Sample.fresh
                   (mkStatistics (JNum 7)
                      (Some (mkBySeverity (JNum 2) (JNum 4) (JNum 1))) [])
                   (mkBySeverity (JNum 2) (JNum 4) (JNum 1)) eq_refl _)).
  intros m H. discriminate H.
Defined.

End EnhancedFeatures.

Section CalibrationWizard.
Import Exam Enhanced Wizard.

(** Past the last step [advance] returns [Completed] and keeps the
    manager as it is. *)
Lemma advance_when_completed (m : Core.Calibration) :
  Core.allCompleted m = true -> Core.advance m = (m, Core.Completed).
Proof. intros H. unfold Core.advance. now rewrite H. Qed.

Lemma advances_when_completed (n : nat) (m : Core.Calibration) :
  Core.allCompleted m = true ->
  Core.advances n m = (m, repeat Core.Completed n).
Proof.
  intros H. induction n as [|n IH]; simpl; [reflexivity|].
  now rewrite advance_when_completed, IH.
Qed.

(** From any manager, enough calls of [advance] complete the sequence. *)
Lemma advance_reaches_completed (m : Core.Calibration) :
  Core.allCompleted (fst (Core.advances (length Core.calibrationSteps) m)) = true.
Proof.
  destruct m as [k]. simpl.
  do 5 (try (destruct k as [|k]; [reflexivity|])).
  reflexivity.
Qed.

(** [closeCalibrationModal] removes the first overlay of the page, if
    there is one. *)
Lemma closeCalibrationModal_removes_first (c : Client) :
  closeCalibrationModal c =
    (set_doc (set_body (remove_first is_overlay (body (doc c))) (doc c)) c, Normal tt).
Proof.
  unfold closeCalibrationModal, bind, gets, querySelector_overlay, modify_doc, modify, ret.
  destruct (find is_overlay (body (doc c))) eqn:E; [reflexivity|].
  rewrite (remove_first_none _ _ E).
  destruct c as [x d q n]. destruct d. reflexivity.
Qed.

(** What the callback of [nextCalibrationStep] does with a body whose
    result is completed. *)
Lemma nextCalibrationStep_completed (c : Client) (data : NextData) (r : NextResult) :
  n_status data = JStr "success" ->
  n_result data = Some r ->
  r_status r = JStr "completed" ->
  nextCalibrationStep_settled (Fulfilled (Fulfilled data)) c =
    (set_doc
       (set_body
          (remove_first is_overlay (body (doc c))
             ++ [toast (JStr "Calibration completed successfully!") "success"])
          (doc c)) c,
     Normal tt).
Proof.
  intros H1 H2 H3.
  unfold nextCalibrationStep_settled, json, then_catch, try_catch, bind.
  rewrite H1, H2, H3. simpl.
  unfold showNotification, modify_doc, modify. simpl.
  rewrite closeCalibrationModal_removes_first. simpl.
  rewrite remove_first_app_keep by apply toast_not_overlay.
  destruct c as [x d q n]. destruct d. reflexivity.
Qed.

(** Once every calibration step is completed, each further
    [advance] returns [Completed] and leaves the manager unchanged, so
    any number of further calls returns [Completed] every time.  The
    wizard script takes a successful body whose result has status
    "completed" as success: it shows the success toast and calls
    [closeCalibrationModal] (the first overlay of the page is removed,
    which closes the wizard when its modal is the only overlay), shows no
    error toast, writes nothing to the console, issues no request and
    does not throw. *)
Theorem advance_idempotent_and_completed_is_success
    (m : Core.Calibration) (n : nat)
    (c : Client) (data : NextData) (r : NextResult) :
  Core.allCompleted m = true ->
  n_status data = JStr "success" ->
  n_result data = Some r ->
  r_status r = JStr "completed" ->
  Core.advances n m = (m, repeat Core.Completed n)
  /\ Core.advance m = (m, Core.Completed)
  /\ let p := Fulfilled (Fulfilled data) in
     let c' := exec (nextCalibrationStep_settled p) c in
     body (doc c') =
       remove_first is_overlay (body (doc c))
         ++ [toast (JStr "Calibration completed successfully!") "success"]
     /\ (forall w, filter is_overlay (body (doc c)) = [w] ->
           filter is_overlay (body (doc c')) = [])
     /\ requests c' = requests c
     /\ consoleErrors c' = consoleErrors c
     /\ examRunning c' = examRunning c
     /\ threw (nextCalibrationStep_settled p) c = false.
Proof.
  intros H H1 H2 H3.
  split; [now apply advances_when_completed|].
  split; [now apply advance_when_completed|].
  unfold exec, threw.
  rewrite (nextCalibrationStep_completed c data r H1 H2 H3).
  simpl. repeat split; try reflexivity.
  intros w Hw. rewrite filter_app, filter_remove_first, Hw. reflexivity.
Qed.

(** The statement above after the four steps of the sequence, for three
    further calls and the response to the last of them. *)
Lemma advance_idempotent_and_completed_is_success_witness :
  Core.advances 3 (Core.mkCalibration 4)
  = (Core.mkCalibration 4, [Core.Completed; Core.Completed; Core.Completed])
  /\ body (doc (exec (nextCalibrationStep_settled
                        (Fulfilled (Fulfilled (Core.advanceResponse Core.Completed))))
                     Sample.fresh))
     = [toast (JStr "Calibration completed successfully!") "success"].
Proof.
  pose proof (advance_idempotent_and_completed_is_success
                (Core.mkCalibration 4) 3 Sample.fresh
                (Core.advanceResponse Core.Completed)
                (mkNextResult (JStr "completed"))
                eq_refl eq_refl eq_refl eq_refl) as [H1 [_ [H2 _]]].
  split; [exact H1 | exact H2].
Defined.

(** With two wizard modals stacked, one completed result removes the
    older one only; the next completed result removes the other. *)
Example completed_removes_one_overlay_per_call :
  let step1 := mkCalibrationStatus (JStr "Camera") (Some []) (JNum 0) in
  let step2 := mkCalibrationStatus (JStr "Lighting") (Some []) (JNum 1) in
  let p := Fulfilled (Fulfilled (Core.advanceResponse Core.Completed)) in
  let c0 := exec (showCalibrationModal step1 ;; showCalibrationModal step2) Sample.fresh in
  let c1 := exec (nextCalibrationStep_settled p) c0 in
  let c2 := exec (nextCalibrationStep_settled p) c1 in
  map nodeContent (filter is_overlay (body (doc c1))) = [WizardStep (JNum 1)]
  /\ filter is_overlay (body (doc c2)) = [].
Proof. split; reflexivity. Qed.

End CalibrationWizard.

(** * Properties of the core *)

Section ScoreAggregator.
Import Core.
Local Open Scope Q_scope.

Variable cfg : Config.
Hypothesis decay_nonneg : 0 <= decayRate cfg.

Lemma clamp_inRange (x : Q) : inRange (clamp x).
Proof.
  unfold inRange, clamp.
  destruct (Q.max_spec 0 (Qmin 100 x)) as [[H1 H2]|[H1 H2]];
    destruct (Q.min_spec 100 x) as [[H3 H4]|[H3 H4]]; lra.
Qed.

(** A value inside the range is its own clamp. *)
Lemma clamp_id (x : Q) : inRange x -> clamp x == x.
Proof.
  unfold inRange, clamp. intros [Hlo Hhi].
  destruct (Q.max_spec 0 (Qmin 100 x)) as [[H1 H2]|[H1 H2]];
    destruct (Q.min_spec 100 x) as [[H3 H4]|[H3 H4]]; lra.
Qed.

Lemma decay_bounds (dt s : Q) :
  0 <= dt -> 0 <= s -> 0 <= decay cfg dt s /\ decay cfg dt s <= s.
Proof.
  intros Hd Hs. unfold decay.
  pose proof (Qmult_le_0_compat _ _ decay_nonneg Hd) as Hm.
  destruct (Q.max_spec 0 (s - decayRate cfg * dt)) as [[H1 H2]|[H1 H2]]; lra.
Qed.

(** What [submit] does to the score. *)
Lemma submit_score (e : DetectionEvent) (st : State) :
  score (fst (submit cfg e st)) =
    match snd (submit cfg e st) with
    | Accepted => applyEvent e (score st)
    | _ => score st
    end.
Proof.
  unfold submit. destruct (session st); try reflexivity.
  destruct (inCooldown cfg e (lastAccepted st (kind e))); reflexivity.
Qed.

Lemma apply_inRange (st : State) (o : Op) :
  ticksForward [o] -> inRange (score st) -> inRange (score (apply cfg st o)).
Proof.
  intros Ht Hs. destruct o as [now hookOk|now|e|dt]; simpl.
  - unfold start. destruct (session st); simpl; auto;
      destruct hookOk; simpl; auto; unfold inRange; lra.
  - unfold stop. destruct (session st); simpl; auto.
  - rewrite submit_score. destruct (snd (submit cfg e st)); auto.
    apply clamp_inRange.
  - simpl in Ht. destruct Ht as [Hd _]. destruct Hs as [Hlo Hhi].
    destruct (decay_bounds dt (score st) Hd Hlo) as [H1 H2].
    unfold inRange. lra.
Qed.

Lemma ticksForward_cons (o : Op) (os : list Op) :
  ticksForward (o :: os) -> ticksForward [o] /\ ticksForward os.
Proof. destruct o; simpl; tauto. Qed.

Lemma trace_inRange (os : list Op) :
  ticksForward os ->
  forall st, inRange (score st) ->
  Forall (fun st' => inRange (score st')) (trace cfg os st).
Proof.
  induction os as [|o os IH]; intros Ht st Hs; simpl; constructor;
    apply ticksForward_cons in Ht; destruct Ht as [Ho Hos].
  - now apply apply_inRange.
  - apply IH; [exact Hos | now apply apply_inRange].
Qed.

(** C4.  With a decay rate that is not negative and ticks whose elapsed
    time is not negative, the score is in [[0, 100]] after every
    operation of every sequence of starts, stops, submitted events and
    ticks that begins with the score in range.  An accepted event sets
    the score to the clamp of the old score plus its weight, and a tick
    leaves the score between 0 and its old value. *)
Theorem score_stays_in_range (os : list Op) (st : State) :
  ticksForward os ->
  inRange (score st) ->
  Forall (fun st' => 0 <= score st' /\ score st' <= 100) (trace cfg os st)
  /\ (forall e st0, snd (submit cfg e st0) = Accepted ->
        score (fst (submit cfg e st0)) = clamp (score st0 + weight e)
        /\ 0 <= score (fst (submit cfg e st0)) <= 100)
  /\ (forall dt st0, 0 <= dt -> 0 <= score st0 ->
        0 <= score (tick cfg dt st0) /\ score (tick cfg dt st0) <= score st0).
Proof.
  intros Ht Hs. split; [|split].
  - exact (trace_inRange os Ht st Hs).
  - intros e st0 Ha. rewrite submit_score, Ha. split; [reflexivity|].
    apply clamp_inRange.
  - intros dt st0 Hd H0. simpl. now apply decay_bounds.
Qed.

End ScoreAggregator.

Section FusionCore.
Import Core.
Local Open Scope Q_scope.

(** The statement of C4 on a session with heavy events and long ticks. *)
Lemma score_stays_in_range_witness :
  Forall (fun st' => 0 <= score st' /\ score st' <= 100)
         (trace Sample.config Sample.busy init).
Proof.
  refine (proj1 (score_stays_in_range Sample.config _ Sample.busy init _ _)).
  - unfold Qle; simpl; lia.
  - simpl. repeat split; unfold Qle; simpl; lia.
  - split; unfold Qle; simpl; lia.
Defined.

(** The scores along the sample session: 0, 70, 100 (clamped), 95, 0
    (clamped from below), 0, 0. *)
Example busy_scores :
  Forall2 Qeq (map score (trace Sample.config Sample.busy init))
              [0; 70; 100; 95; 0; 0; 0].
Proof. repeat constructor. Qed.

(** Outside [Running] an event is rejected and the state is untouched. *)
Lemma submit_rejected_when_not_running (cfg : Config) (e : DetectionEvent) (st : State) :
  session st <> Running -> submit cfg e st = (st, Rejected).
Proof. unfold submit. destruct (session st); congruence. Qed.

(** Outside [Running] a stop fails with [NotRunning] and the state,
    [stoppedAt] included, is untouched. *)
Lemma stop_when_not_running (now : Q) (st : State) :
  session st <> Running -> stop now st = (st, Some NotRunning).
Proof. unfold stop. destruct (session st); congruence. Qed.

(** A start whose acquisition hook fails never ends in [Running]. *)
Lemma start_failure_not_running (now : Q) (st : State) :
  session st <> Running ->
  session (fst (start now false st)) = NotStarted
  /\ snd (start now false st) = Some AcquisitionFailed.
Proof. unfold start. destruct (session st); simpl; intuition congruence. Qed.

(** Decay does not touch the alert log. *)
Lemma tick_keeps_latestAlert (cfg : Config) (dt : Q) (st : State) :
  latestAlert (alerts (tick cfg dt st)) = latestAlert (alerts st).
Proof. reflexivity. Qed.

(** The total of the statistics is the sum of the three tiers. *)
Lemma statistics_total (log : list Alert) :
  fst (statistics log)
  = (countSeverity Critical log + countSeverity Warning log + countSeverity Info log)%nat.
Proof.
  unfold statistics, countSeverity. simpl.
  induction log as [|a log IH]; simpl; [reflexivity|].
  rewrite IH. destruct (severity a); simpl; lia.
Qed.

(** The first event of a kind, or one after its window has elapsed,
    counts as 1. *)
Lemma recordAndCount_fresh (cfg : Config) (e : DetectionEvent)
    (cs : Kind -> option ViolationCounter) :
  (cs (kind e) = None
   \/ exists ctr, cs (kind e) = Some ctr
                  /\ windowDuration cfg < occurredAt e - windowStart ctr) ->
  snd (recordAndCount cfg e cs) = 1%nat.
Proof.
  unfold recordAndCount. intros [-> | [ctr [-> H]]]; [reflexivity|].
  destruct (Qle_bool _ _) eqn:E; [|reflexivity].
  apply Qle_bool_iff in E. lra.
Qed.

(** An event inside the window of its kind counts one more. *)
Lemma recordAndCount_in_window (cfg : Config) (e : DetectionEvent)
    (cs : Kind -> option ViolationCounter) (ctr : ViolationCounter) :
  cs (kind e) = Some ctr ->
  occurredAt e - windowStart ctr <= windowDuration cfg ->
  snd (recordAndCount cfg e cs) = S (count ctr).
Proof.
  unfold recordAndCount. intros -> H.
  apply Qle_bool_iff in H. now rewrite H.
Qed.

(** From the third occurrence on the severity is [Critical], whatever
    the kind. *)
Lemma severityFor_escalated (k : Kind) (n : nat) :
  (3 <= n)%nat -> severityFor k n = Critical.
Proof.
  intros H. unfold severityFor, escalationThreshold.
  destruct (Nat.leb_spec 3 n); [reflexivity | lia].
Qed.

(** Below the threshold the severity is the base tier of the kind. *)
Lemma severityFor_base (k : Kind) (n : nat) :
  (n < 3)%nat -> severityFor k n = baseSeverity k.
Proof.
  intros H. unfold severityFor, escalationThreshold.
  destruct (Nat.leb_spec 3 n); [lia | reflexivity].
Qed.

Lemma upd_same {A} (k : Kind) (v : A) (f : Kind -> A) : upd k v f k = v.
Proof. unfold upd. destruct k; reflexivity. Qed.

Lemma upd_other {A} (k k' : Kind) (v : A) (f : Kind -> A) :
  kind_eqb k' k = false -> upd k v f k' = f k'.
Proof. intros H. unfold upd. now rewrite H. Qed.

Lemma kind_eqb_eq (a b : Kind) : kind_eqb a b = true <-> a = b.
Proof. destruct a, b; simpl; split; intros H; try discriminate; reflexivity. Qed.

Lemma kind_eqb_sym (a b : Kind) : kind_eqb a b = kind_eqb b a.
Proof. destruct a, b; reflexivity. Qed.

(** One accepted event inside the rolling window of its kind: the
    tracker counts one more and moves the window to the event, and the
    alert appended for it has the severity of that count. *)
Lemma submit_in_window
    (cfg : Config) (st : State) (e : DetectionEvent) (c : nat) (prev : option Q) :
  session st = Running ->
  CoreRuns.windowOpen st (kind e) c prev ->
  match lastAccepted st (kind e) with
  | Some t => cooldown cfg (kind e) <= occurredAt e - t
  | None => True
  end ->
  match prev with
  | Some t => occurredAt e - t <= windowDuration cfg
  | None => True
  end ->
  exists st' a,
    submit cfg e st = (st', Accepted)
    /\ session st' = Running
    /\ counters st' (kind e) = Some (mkCounter (S c) (occurredAt e))
    /\ lastAccepted st' (kind e) = Some (occurredAt e)
    /\ alerts st' = alerts st ++ [a]
    /\ sourceKind a = kind e
    /\ severity a = severityFor (kind e) (S c).
Proof.
  intros Hs Hopen Hacc Hwin.
  assert (Hcool : inCooldown cfg e (lastAccepted st (kind e)) = false).
  { unfold inCooldown. destruct (lastAccepted st (kind e)) as [t|]; [|reflexivity].
    apply Qle_bool_iff in Hacc. now rewrite Hacc. }
  unfold submit, recordAndCount, onViolation. rewrite Hs, Hcool.
  destruct prev as [t|]; simpl in Hopen.
  - rewrite Hopen. simpl. apply Qle_bool_iff in Hwin. rewrite Hwin. simpl.
    eexists. eexists. split; [reflexivity|]. simpl.
    rewrite !upd_same. repeat split; reflexivity.
  - destruct Hopen as [Hnone ->]. rewrite Hnone. simpl.
    eexists. eexists. split; [reflexivity|]. simpl.
    rewrite !upd_same. repeat split; reflexivity.
Qed.

(** An event of another kind leaves the window of [k] alone and raises
    no alert for [k]. *)
Lemma submit_other_kind (cfg : Config) (st : State) (e : DetectionEvent) (k : Kind) :
  session st = Running ->
  kind_eqb (kind e) k = false ->
  let st' := fst (submit cfg e st) in
  session st' = Running
  /\ counters st' k = counters st k
  /\ lastAccepted st' k = lastAccepted st k
  /\ exists l, alerts st' = alerts st ++ l /\ filter (CoreRuns.ofKind k) l = [].
Proof.
  intros Hs Hk. unfold submit. rewrite Hs.
  rewrite kind_eqb_sym in Hk.
  destruct (inCooldown cfg e (lastAccepted st (kind e))); simpl.
  - repeat split; auto. exists []. now rewrite app_nil_r.
  - rewrite !upd_other by exact Hk. repeat split; auto.
    eexists. split; [reflexivity|]. simpl. unfold CoreRuns.ofKind. simpl.
    rewrite kind_eqb_sym in Hk. now rewrite Hk.
Qed.

(** The alerts a run inside one rolling window raises for its kind: one
    per occurrence, the severities those of the running count. *)
Lemma run_in_window (cfg : Config) (k : Kind) (os : list Op) :
  forall (st : State) (c : nat) (prev : option Q),
  session st = Running ->
  CoreRuns.windowOpen st k c prev ->
  CoreRuns.inRollingWindow cfg k prev (lastAccepted st k) os ->
  exists new,
    alerts (fold_left (apply cfg) os st) = alerts st ++ new
    /\ map severity (filter (CoreRuns.ofKind k) new)
       = map (severityFor k) (seq (S c) (CoreRuns.occurrences k os)).
Proof.
  induction os as [|o os IH]; intros st c prev Hs Hopen Hwin.
  - exists []. split; [simpl; now rewrite app_nil_r | reflexivity].
  - destruct o as [now hookOk|now|e|dt]; simpl in Hwin; try contradiction;
      cbn [fold_left apply CoreRuns.occurrences].
    + destruct (kind_eqb (kind e) k) eqn:Ek.
      * apply kind_eqb_eq in Ek. subst k. destruct Hwin as [Hacc [Hw Hrest]].
        destruct (submit_in_window cfg st e c prev Hs Hopen Hacc Hw)
          as [st' [a [Hsub [Hs' [Hc' [Hl' [Ha [Hk Hsev]]]]]]]].
        rewrite Hsub. simpl.
        destruct (IH st' (S c) (Some (occurredAt e)) Hs' Hc') as [new [Hn1 Hn2]].
        { now rewrite Hl'. }
        exists (a :: new). split.
        -- rewrite Hn1, Ha, <- app_assoc. reflexivity.
        -- simpl. unfold CoreRuns.ofKind at 1. rewrite Hk.
           assert (Hrefl : kind_eqb (kind e) (kind e) = true) by now apply kind_eqb_eq.
           rewrite Hrefl. simpl. now rewrite Hsev, Hn2.
      * destruct (submit_other_kind cfg st e k Hs Ek) as [Hs' [Hc' [Hl' [l [Ha Hf]]]]].
        destruct (IH (fst (submit cfg e st)) c prev Hs') as [new [Hn1 Hn2]].
        { unfold CoreRuns.windowOpen in *. now rewrite Hc'. }
        { now rewrite Hl'. }
        exists (l ++ new). split.
        -- rewrite Hn1, Ha, <- app_assoc. reflexivity.
        -- rewrite filter_app, Hf. exact Hn2.
    + destruct (IH (tick cfg dt st) c prev Hs Hopen Hwin) as [new [Hn1 Hn2]].
      exists new. split; [exact Hn1 | exact Hn2].
Qed.

Lemma nth_error_map_seq {A B} (f : A -> B) (g : nat -> B) (l : list A) :
  forall (s n i : nat) (a : A),
  map f l = map g (seq s n) -> nth_error l i = Some a -> f a = g (s + i)%nat.
Proof.
  induction l as [|x l IH]; intros s n i a Hmap Hnth.
  - destruct i; discriminate.
  - destruct n as [|n]; [discriminate|]. simpl in Hmap.
    injection Hmap as Hx Hl. destruct i as [|i]; simpl in Hnth.
    + injection Hnth as <-. now rewrite Nat.add_0_r.
    + rewrite <- Nat.add_succ_comm. now apply (IH (S s) n i a).
Qed.

(** C3.  Take a running session and any kind, and a run of the core that
    stays inside one rolling window of that kind: events of the kind each
    no later than [windowDuration] after the one before (and past its
    cooldown), with ticks and events of other kinds anywhere in between.
    Every occurrence of the kind raises exactly one alert, and the alert
    of the third and of every later occurrence in the window has severity
    [Critical], whatever the base tier of the kind.  The window may be
    fresh ([c = 0]) or hold [c] occurrences already. *)
Theorem third_occurrence_is_critical
    (cfg : Config) (k : Kind) (st : State) (c : nat) (prev : option Q)
    (os : list Op) :
  session st = Running ->
  CoreRuns.windowOpen st k c prev ->
  CoreRuns.inRollingWindow cfg k prev (lastAccepted st k) os ->
  exists new,
    alerts (fold_left (apply cfg) os st) = alerts st ++ new
    /\ length (filter (CoreRuns.ofKind k) new) = CoreRuns.occurrences k os
    /\ map severity (filter (CoreRuns.ofKind k) new)
       = map (severityFor k) (seq (S c) (CoreRuns.occurrences k os))
    /\ (forall i a, nth_error (filter (CoreRuns.ofKind k) new) i = Some a ->
          (3 <= S c + i)%nat -> severity a = Critical).
Proof.
  intros Hs Hopen Hwin.
  destruct (run_in_window cfg k os st c prev Hs Hopen Hwin) as [new [H1 H2]].
  exists new. split; [exact H1|]. split; [|split; [exact H2|]].
  - rewrite <- (length_map severity), H2, length_map. apply length_seq.
  - intros i a Hnth Hi.
    rewrite (nth_error_map_seq severity (severityFor k) _ _ _ i a H2 Hnth).
    apply severityFor_escalated. exact Hi.
Qed.

(** Scenario 1: the score is 30 and the third alert is [Critical]. *)
Example scenario1_outcome :
  let st := fold_left (apply Sample.config) Sample.scenario1 init in
  score st == 30 /\ map severity (alerts st) = [Warning; Warning; Critical].
Proof. split; reflexivity. Qed.

(** The severities of the alerts of four events of one kind, five
    seconds apart: the base tier twice, then [Critical]. *)
Example repeated_severities (k : Kind) :
  map severity (alerts (fold_left (apply Sample.config) (Sample.repeated k) init))
  = [baseSeverity k; baseSeverity k; Critical; Critical].
Proof. destruct k; reflexivity. Qed.

(** Events 40 seconds apart with a window of 60 seconds stay in one
    window although the third comes 80 seconds after the first; an event
    61 seconds after the one before it opens a fresh window. *)
Example rolling_window_rolls :
  let at_ t := OpSubmit (mkEvent FaceMissing t 10) in
  map severity
    (alerts (fold_left (apply Sample.config)
               [OpStart 0 true; at_ 0; at_ 40; at_ 80; at_ 141; at_ 150] init))
  = [Warning; Warning; Critical; Warning; Warning].
Proof. reflexivity. Qed.

(** The statement of C3 for the sample session with a face missing at
    the seconds 10, 50 and 90: the third alert for the kind is
    [Critical]. *)
Lemma third_occurrence_is_critical_witness :
  let st := fst (start 0 true init) in
  exists new,
    alerts (fold_left (apply Sample.config) Sample.spaced st) = alerts st ++ new
    /\ length (filter (CoreRuns.ofKind FaceMissing) new) = 3%nat
    /\ map severity (filter (CoreRuns.ofKind FaceMissing) new)
       = [Warning; Warning; Critical].
Proof.
  destruct (third_occurrence_is_critical Sample.config FaceMissing
              (fst (start 0 true init)) 0 None Sample.spaced)
    as [new [H1 [H2 [H3 _]]]].
  - reflexivity.
  - split; reflexivity.
  - simpl. repeat split; unfold Qle; simpl; lia.
  - exists new. split; [exact H1|]. split; [exact H2 | exact H3].
Defined.

End FusionCore.

(** * Further properties of the scripts *)

Section ExamSession.
Import Exam.

Ltac js_run :=
  unfold step, exec, threw, handler, startExam_settled, stopExam_settled,
    pollScore_settled, pollAlert_settled, pulseTimer, onScoreData, onAlertData,
    onVisibilityChange, tabSwitched_settled, startExam, stopExam, pollScore,
    pollAlert, json,
    updateExamStatus, showNotification, console_error, fetch, modify_doc,
    then_catch, try_catch, bind, gets, modify, ret, throw;
  simpl.

(** The flag after a step. *)
Lemma step_examRunning (c : Client) (e : Event) :
  examRunning (step c e) =
    match e with
    | StartSettled (Fulfilled res) => if ok res then true else examRunning c
    | StopSettled (Fulfilled _) => false
    | _ => examRunning c
    end.
Proof.
  destruct c as [r d q n]. destruct d as [es sc ab asn at_ b].
  destruct e as [ |p| |p|h|p| |ch p| | |p| ]; js_run; try reflexivity.
  - destruct p as [[[|]]|]; simpl; try reflexivity.
    destruct es as [[cls [sp|]]|]; reflexivity.
  - destruct r; reflexivity.
  - destruct p as [res|]; simpl; try reflexivity.
    destruct es as [[cls [sp|]]|]; reflexivity.
  - destruct h, r; reflexivity.
  - destruct p; reflexivity.
  - destruct p as [[data|]|]; simpl; try reflexivity.
    destruct sc; reflexivity.
  - destruct sc; reflexivity.
  - destruct p as [[data|]|]; simpl; try reflexivity.
    destruct ab, asn; simpl; try reflexivity.
    destruct (truthy _); simpl; try reflexivity.
    destruct at_; reflexivity.
Qed.

(** The badge after a step that is not the answer to a start or a stop. *)
Lemma step_displayedStatus (c : Client) (e : Event) :
  (forall res, e <> StartSettled (Fulfilled res)) ->
  (forall res, e <> StopSettled (Fulfilled res)) ->
  displayedStatus (step c e) = displayedStatus c.
Proof.
  intros H1 H2.
  destruct c as [r d q n]. destruct d as [es sc ab asn at_ b].
  destruct e as [ |p| |p|h|p| |ch p| | |p| ]; js_run; try reflexivity.
  - destruct p as [res|]; [now elim (H1 res) | reflexivity].
  - destruct r; reflexivity.
  - destruct p as [res|]; [now elim (H2 res) | reflexivity].
  - destruct h, r; reflexivity.
  - destruct p; reflexivity.
  - destruct p as [[data|]|]; simpl; try reflexivity.
    destruct sc; reflexivity.
  - destruct sc; reflexivity.
  - destruct p as [[data|]|]; simpl; try reflexivity.
    destruct ab, asn; simpl; try reflexivity.
    destruct (truthy _); simpl; try reflexivity.
    destruct at_; reflexivity.
Qed.

Lemma run_snoc (es : list Event) (e : Event) (c : Client) :
  run (es ++ [e]) c = step (run es c) e.
Proof. unfold run. now rewrite fold_left_app. Qed.

(** X1.  A fulfilled [/stop_exam] request marks the exam stopped whatever
    the response says ([res.ok] is not read), and with a badge that has
    its span (or no badge) shows the "Exam stopped" toast.  A rejected
    request changes nothing but the console: the flag stays as it was
    and the user is told nothing.  While the request is pending the flag
    is still true, so a second click sends a second request. *)
Theorem stop_response_is_not_checked (c : Client) (res : Response) :
  examRunning c = true ->
  (forall el, displayedStatus c = Some el -> statusSpan el <> None) ->
  let c1 := step c ClickStop in
  c1 = mkClient true (doc c) (requests c ++ [GET url_stop_exam]) (consoleErrors c)
  /\ requests (step c1 ClickStop)
       = requests c ++ [GET url_stop_exam; GET url_stop_exam]
  /\ examRunning (step c1 (StopSettled (Fulfilled res))) = false
  /\ body (doc (step c1 (StopSettled (Fulfilled res))))
       = body (doc c) ++ [toast (JStr "Exam stopped") "info"]
  /\ (forall el, displayedStatus c = Some el ->
        displayedStatus (step c1 (StopSettled (Fulfilled res)))
          = Some (mkStatus ["bg-red-500"; "bg-opacity-80"; "rounded-lg"; "px-4"; "py-2"]
                           (Some "Exam Stopped")))
  /\ step c1 (StopSettled Rejected)
       = mkClient true (doc c) (requests c ++ [GET url_stop_exam]) (S (consoleErrors c)).
Proof.
  destruct c as [r d q n]. destruct d as [es sc ab asn at_ b]. simpl.
  intros -> Hspan. js_run.
  split; [reflexivity|].
  split; [now rewrite <- app_assoc|].
  destruct es as [[cls [sp|]]|]; simpl.
  - repeat split; intros; reflexivity.
  - exfalso. now apply (Hspan _ eq_refl).
  - repeat split; intros; try discriminate; reflexivity.
Qed.

(** X1 on the running sample page, for a response that is not ok. *)
Lemma stop_response_is_not_checked_witness :
  examRunning (step (step Sample.running ClickStop)
                    (StopSettled (Fulfilled (mkResponse false)))) = false.
Proof.
  refine (proj1 (proj2 (proj2 (stop_response_is_not_checked Sample.running
                                 (mkResponse false) eq_refl _)))).
  intros el H. injection H as <-. discriminate.
Defined.

(** X2.  On a page whose badge has no span, an ok answer to the start
    request still turns [examRunning] on and rewrites the class of the
    badge, but the write to the span throws inside the callback: the
    success toast is never shown, the catch handler reports "Backend not
    reachable" and logs to the console. *)
Theorem start_ok_without_span_reports_unreachable
    (c : Client) (res : Response) (el : StatusElement) :
  ok res = true ->
  displayedStatus c = Some el ->
  statusSpan el = None ->
  let c' := step c (StartSettled (Fulfilled res)) in
  examRunning c' = true
  /\ displayedStatus c'
       = Some (mkStatus ["bg-green-500"; "bg-opacity-80"; "rounded-lg"; "px-4"; "py-2"]
                        None)
  /\ body (doc c') = body (doc c) ++ [toast (JStr "Backend not reachable") "error"]
  /\ consoleErrors c' = S (consoleErrors c)
  /\ requests c' = requests c.
Proof.
  destruct c as [r d q n]. destruct d as [es sc ab asn at_ b].
  destruct res as [o]. destruct el as [cls sp]. unfold displayedStatus. simpl.
  intros -> -> ->. js_run. repeat split; reflexivity.
Qed.

(** X2 on the sample page with the span taken out of the badge. *)
Lemma start_ok_without_span_reports_unreachable_witness :
  let c := initial (set_examStatus (Some (mkStatus ["bg-gray-500"] None)) Sample.page) in
  examRunning (step c (StartSettled (Fulfilled (mkResponse true)))) = true
  /\ body (doc (step c (StartSettled (Fulfilled (mkResponse true)))))
       = [toast (JStr "Backend not reachable") "error"].
Proof.
  pose proof (start_ok_without_span_reports_unreachable
                (initial (set_examStatus (Some (mkStatus ["bg-gray-500"] None)) Sample.page))
                (mkResponse true) (mkStatus ["bg-gray-500"] None)
                eq_refl eq_refl eq_refl) as [H1 [_ [H2 _]]].
  split; [exact H1 | exact H2].
Defined.

(** What holds of a client that a run reached from a loaded page. *)
Lemma run_needs_started (d : Document) (es : list Event) :
  let c := run es (initial d) in
  (examRunning c = true ->
     exists res, In (StartSettled (Fulfilled res)) es /\ ok res = true)
  /\ (In (GET url_stop_exam) (requests c) ->
        exists res, In (StartSettled (Fulfilled res)) es /\ ok res = true)
  /\ (In (POST url_tab_switched) (requests c) ->
        (exists res, In (StartSettled (Fulfilled res)) es /\ ok res = true)
        /\ In (VisibilityChange true) es).
Proof.
  induction es as [|e es IH] using rev_ind; simpl.
  - split; [intros H; discriminate H | split; intros H; destruct H].
  - rewrite run_snoc. destruct IH as [IH1 [IH2 IH3]].
    assert (Hmono : forall P : Event -> Prop,
               (exists x, In x es /\ P x) -> exists x, In x (es ++ [e]) /\ P x).
    { intros P [x [Hx HP]]. exists x. split; [apply in_or_app; now left | exact HP]. }
    assert (Hrun : examRunning (step (run es (initial d)) e) = true ->
                   exists res, In (StartSettled (Fulfilled res)) (es ++ [e])
                               /\ ok res = true).
    { rewrite step_examRunning. intros H.
      destruct e as [ |[res|]| |[res|]|h|p| |ch p| | |p| ];
        try (destruct (IH1 H) as [x [Hx Hok]]; exists x;
             split; [apply in_or_app; now left | exact Hok]).
      - destruct (ok res) eqn:E.
        + exists res. split; [apply in_or_app; right; now left | exact E].
        + destruct (IH1 H) as [x [Hx Hok]]. exists x.
          split; [apply in_or_app; now left | exact Hok].
      - discriminate. }
    split; [exact Hrun|].
    rewrite step_requests. split.
    + intros H. apply in_app_or in H. destruct H as [H|H].
      * destruct (IH2 H) as [x [Hx Hok]]. exists x.
        split; [apply in_or_app; now left | exact Hok].
      * destruct e as [ |p| |p|h|p| |ch p| | |p| ]; simpl in H;
          try (destruct H as [H|[]]; discriminate); try (now destruct H).
        -- destruct (examRunning (run es (initial d))) eqn:E; [|now destruct H].
           destruct (IH1 eq_refl) as [x [Hx Hok]]. exists x.
           split; [apply in_or_app; now left | exact Hok].
        -- destruct (h && examRunning (run es (initial d)));
             [destruct H as [H|[]]; discriminate | now destruct H].
    + intros H. apply in_app_or in H. destruct H as [H|H].
      * destruct (IH3 H) as [[x [Hx Hok]] Hv]. split.
        -- exists x. split; [apply in_or_app; now left | exact Hok].
        -- apply in_or_app; now left.
      * destruct e as [ |p| |p|h|p| |ch p| | |p| ]; simpl in H;
          try (destruct H as [H|[]]; discriminate); try (now destruct H).
        -- destruct (examRunning (run es (initial d)));
             [destruct H as [H|[]]; discriminate | now destruct H].
        -- destruct h; simpl in H; [|now destruct H].
           destruct (examRunning (run es (initial d))) eqn:E; [|now destruct H].
           split.
           ++ destruct (IH1 eq_refl) as [x [Hx Hok]]. exists x.
              split; [apply in_or_app; now left | exact Hok].
           ++ apply in_or_app. right. now left.
Qed.

(** X3.  In every run of the event loop from a freshly loaded page, a
    [/stop_exam] request or a [/tab_switched] request is in the log only
    if an ok answer to a start request came before; for a
    [/tab_switched] request the tab was hidden at some point as well. *)
Theorem no_stop_or_tab_switch_before_started (d : Document) (es : list Event) (r : Request) :
  In r (requests (run es (initial d))) ->
  r = GET url_stop_exam \/ r = POST url_tab_switched ->
  (exists res, In (StartSettled (Fulfilled res)) es /\ ok res = true)
  /\ (r = POST url_tab_switched -> In (VisibilityChange true) es).
Proof.
  intros Hin Hr. destruct (run_needs_started d es) as [_ [H2 H3]].
  destruct Hr as [-> | ->].
  - split; [exact (H2 Hin) | discriminate].
  - destruct (H3 Hin) as [Ha Hb]. split; [exact Ha | intros _; exact Hb].
Qed.

(** X3 on the run of the running sample page with the tab hidden once. *)
Lemma no_stop_or_tab_switch_before_started_witness :
  exists res,
    In (StartSettled (Fulfilled res))
       [ClickStart; StartSettled (Fulfilled (mkResponse true)); VisibilityChange true]
    /\ ok res = true.
Proof.
  refine (proj1 (no_stop_or_tab_switch_before_started Sample.page
                   [ClickStart; StartSettled (Fulfilled (mkResponse true));
                    VisibilityChange true]
                   (POST url_tab_switched) _ (or_intror eq_refl))).
  simpl. right. left. reflexivity.
Defined.

(** X4.  Only the answer to a start request or to a stop request changes
    [examRunning] or the badge: clicks, polls, timers, visibility changes
    and their callbacks leave both as they are. *)
Theorem only_start_and_stop_answers_change_session (c : Client) (e : Event) :
  examRunning (step c e) <> examRunning c
  \/ displayedStatus (step c e) <> displayedStatus c ->
  exists res, e = StartSettled (Fulfilled res) \/ e = StopSettled (Fulfilled res).
Proof.
  intros H.
  destruct e as [ |[res|]| |[res|]|h|p| |ch p| | |p| ];
    try (exists res; tauto);
    exfalso; (destruct H as [H|H]; apply H;
              [rewrite step_examRunning; reflexivity
              | apply step_displayedStatus; intros; discriminate]).
Qed.

(** X4 on the running sample page: the answer to the stop request is
    such a step. *)
Lemma only_start_and_stop_answers_change_session_witness :
  exists res,
    StopSettled (Fulfilled (mkResponse true)) = StartSettled (Fulfilled res)
    \/ StopSettled (Fulfilled (mkResponse true)) = StopSettled (Fulfilled res).
Proof.
  refine (only_start_and_stop_answers_change_session Sample.running
            (StopSettled (Fulfilled (mkResponse true))) _).
  left. discriminate.
Defined.

End ExamSession.

Section Polls.
Import Exam.

Ltac js_run :=
  unfold step, exec, threw, handler, pollScore_settled, pollAlert_settled,
    pulseTimer, onScoreData, onAlertData, json,
    showNotification, console_error, fetch, modify_doc,
    then_catch, try_catch, bind, gets, modify, ret, throw;
  simpl.

(** X5.  The alert callback shows [data.message] when it is truthy and
    otherwise falls back on [data.alert]; only when both are falsy does
    it hide the section, and then the box keeps its old text.  On a page
    that lacks the box or the section the callback changes nothing at
    all, so an empty message does not hide a section without a box. *)
Theorem alert_poll_falls_back_on_alert_key
    (c : Client) (data : AlertData) (box section : Element) :
  alertBox (doc c) = Some box ->
  alertSection (doc c) = Some section ->
  let c' := exec (onAlertData data) c in
  (truthy (a_message data) = true ->
     alertBox (doc c') = Some (mkElement (className box) (a_message data)))
  /\ (truthy (a_message data) = false -> truthy (a_alert data) = true ->
        alertBox (doc c') = Some (mkElement (className box) (a_alert data))
        /\ exists s, alertSection (doc c') = Some s
                     /\ has_class "hidden" (className s) = false)
  /\ (truthy (a_message data) = false -> truthy (a_alert data) = false ->
        alertBox (doc c') = Some box
        /\ alertTime (doc c') = alertTime (doc c)
        /\ exists s, alertSection (doc c') = Some s
                     /\ has_class "hidden" (className s) = true)
  /\ (forall c0, alertBox (doc c0) = None \/ alertSection (doc c0) = None ->
        exec (onAlertData data) c0 = c0).
Proof.
  intros Hb Hs.
  assert (Hvis : has_class "hidden"
                   (classList_add "alert-slide"
                      (classList_remove "hidden" (className section))) = false).
  { rewrite has_class_add_other by reflexivity. apply has_class_remove_same. }
  destruct c as [r d q n]. destruct d as [es sc ab asn at_ b]. simpl in *.
  subst ab asn. js_run. unfold jsor.
  split; [|split; [|split]].
  - intros Hm. repeat (progress (simpl; rewrite ?Hm)). destruct at_; reflexivity.
  - intros Hm Ha. repeat (progress (simpl; rewrite ?Hm, ?Ha)).
    destruct at_; simpl; (split; [reflexivity|]); eexists; (split; [reflexivity|]);
      exact Hvis.
  - intros Hm Ha. repeat (progress (simpl; rewrite ?Hm, ?Ha)).
    split; [reflexivity|]. split; [reflexivity|].
    eexists. split; [reflexivity|]. apply has_class_add_same.
  - intros c0 H. destruct c0 as [r0 d0 q0 n0]. destruct d0 as [es0 sc0 ab0 as0 at0 b0].
    simpl in H. destruct H as [-> | ->]; [reflexivity|].
    destruct ab0; reflexivity.
Qed.

(** X5 on the sample page: a body that carries only the key [alert] is
    shown. *)
Lemma alert_poll_falls_back_on_alert_key_witness :
  alertBox (doc (exec (onAlertData
                         (mkAlertData JUndefined (JStr "Tab switch detected")
                            JUndefined JUndefined))
                      Sample.fresh))
  = Some (mkElement [] (JStr "Tab switch detected")).
Proof.
  refine (proj1 (proj1 (proj2 (alert_poll_falls_back_on_alert_key Sample.fresh
                                 (mkAlertData JUndefined (JStr "Tab switch detected")
                                    JUndefined JUndefined)
                                 (mkElement [] (JStr "")) (mkElement ["hidden"] (JStr ""))
                                 eq_refl eq_refl))
                       eq_refl eq_refl)).
Defined.

(** X6.  The class [pulse-animation] that the score callback adds when
    the score changed is overwritten by the colour class in the same
    callback: after the callback the score element never carries it,
    whatever classes it had before.  A failed request or an unparsable
    body only logs to the console, and without a score element the
    callback changes nothing. *)
Theorem score_pulse_never_stays
    (c : Client) (changed : bool) (data : ScoreData) (e : Element) :
  scoreEl (doc c) = Some e ->
  (exists e', scoreEl (doc (step c (ScoreSettled changed (Fulfilled (Fulfilled data)))))
              = Some e'
              /\ has_class "pulse-animation" (className e') = false
              /\ innerText e' = JNum (score data))
  /\ step c (ScoreSettled changed Rejected)
     = mkClient (examRunning c) (doc c) (requests c) (S (consoleErrors c))
  /\ step c (ScoreSettled changed (Fulfilled Rejected))
     = mkClient (examRunning c) (doc c) (requests c) (S (consoleErrors c))
  /\ (forall c0, scoreEl (doc c0) = None ->
        step c0 (ScoreSettled changed (Fulfilled (Fulfilled data))) = c0).
Proof.
  intros He. destruct c as [r d q n]. destruct d as [es sc ab asn at_ b].
  simpl in He. subst sc. js_run.
  split; [|split; [reflexivity|split; [reflexivity|]]].
  - eexists. split; [reflexivity|]. simpl. split; [|reflexivity].
    unfold scoreClass.
    destruct (Qle_bool 50 (score data)); [reflexivity|].
    destruct (Qle_bool 25 (score data)); reflexivity.
  - intros c0 H. destruct c0 as [r0 d0 q0 n0]. destruct d0 as [es0 sc0 ab0 as0 at0 b0].
    simpl in H. subst sc0. reflexivity.
Qed.

(** X6 on the sample page, with the pulse class already on the element
    and a changed score. *)
Lemma score_pulse_never_stays_witness :
  let c := set_doc (set_scoreEl
                      (Some (mkElement ["text-white"; "pulse-animation"] (JNum 0)))
                      Sample.page) Sample.fresh in
  exists e',
    scoreEl (doc (step c (ScoreSettled true (Fulfilled (Fulfilled (mkScoreData 40))))))
    = Some e'
    /\ has_class "pulse-animation" (className e') = false
    /\ innerText e' = JNum 40.
Proof.
  exact (proj1 (score_pulse_never_stays
                  (set_doc (set_scoreEl
                              (Some (mkElement ["text-white"; "pulse-animation"] (JNum 0)))
                              Sample.page) Sample.fresh)
                  true (mkScoreData 40)
                  (mkElement ["text-white"; "pulse-animation"] (JNum 0)) eq_refl)).
Defined.

End Polls.

Section NodeLists.

Lemma update_first_compose (p : Node -> bool) (f g : Node -> Node) (l : list Node) :
  (forall n, p (g n) = p n) ->
  update_first p f (update_first p g l) = update_first p (fun n => f (g n)) l.
Proof.
  intros Hg. induction l as [|a l IH]; simpl; auto.
  destruct (p a) eqn:E; simpl.
  - now rewrite Hg, E.
  - now rewrite E, IH.
Qed.

Lemma update_first_ext (p : Node -> bool) (f g : Node -> Node) (l : list Node) :
  (forall n, f n = g n) -> update_first p f l = update_first p g l.
Proof.
  intros H. induction l as [|a l IH]; simpl; auto.
  destruct (p a); [now rewrite H | now rewrite IH].
Qed.

Lemma update_first_app_none (p : Node -> bool) (f : Node -> Node)
    (l : list Node) (n : Node) :
  find p l = None ->
  update_first p f (l ++ [n]) = l ++ [if p n then f n else n].
Proof.
  induction l as [|a l IH]; simpl.
  - intros _. destruct (p n); reflexivity.
  - destruct (p a); [discriminate | intros H; now rewrite IH].
Qed.

Lemma classList_remove_idem (t : string) (cls : list string) :
  classList_remove t (classList_remove t cls) = classList_remove t cls.
Proof.
  unfold classList_remove. induction cls as [|a cls IH]; simpl; auto.
  destruct (String.eqb t a) eqn:E; simpl; auto. now rewrite E, IH.
Qed.

Lemma classList_remove_add (t : string) (cls : list string) :
  classList_remove t (classList_add t cls) = classList_remove t cls.
Proof.
  unfold classList_add. destruct (has_class t cls); auto.
  unfold classList_remove. rewrite filter_app. simpl.
  rewrite String.eqb_refl. simpl. apply app_nil_r.
Qed.

Lemma has_class_remove_other (t u : string) (cls : list string) :
  String.eqb t u = false ->
  has_class t (classList_remove u cls) = has_class t cls.
Proof.
  intros H. unfold has_class, classList_remove.
  induction cls as [|a cls IH]; simpl; auto.
  destruct (String.eqb u a) eqn:E; simpl.
  - apply String.eqb_eq in E. subst a. now rewrite H.
  - now rewrite IH.
Qed.

Lemma filter_remove_first_other (p : Node -> bool) (l : list Node) :
  filter (fun n => negb (p n)) (remove_first p l) = filter (fun n => negb (p n)) l.
Proof.
  induction l as [|a l IH]; simpl; auto.
  destruct (p a) eqn:E; simpl; auto. now rewrite E, IH.
Qed.

End NodeLists.

Section StatsModal.
Import Exam Enhanced StatsDialog.

(** The page after [displayAlertStatistics] with a complete argument:
    the modal is made if it is missing, then filled and shown. *)
Lemma displayAlertStatistics_body (c : Client) (st : Statistics) (sev : BySeverity) :
  by_severity st = Some sev ->
  (forall m, getElementById "statsModal" (doc c) = Some m ->
             exists cells, nodeContent m = StatsPanel cells) ->
  displayAlertStatistics (Some st) c =
    (set_doc
       (set_body
          (update_first is_statsModal
             (fun n => mkNode (nodeId n) (classList_remove "hidden" (nodeClass n))
                         (StatsPanel (statsCells (total_alerts st) sev)))
             (match find is_statsModal (body (doc c)) with
              | Some _ => body (doc c)
              | None => body (doc c) ++ [createStatsModal]
              end))
          (doc c)) c,
     Normal tt).
Proof.
  intros Hsev Hmodal.
  destruct c as [r d q n]. destruct d as [es sc ab asn at_ b].
  unfold getElementById in Hmodal. simpl in Hmodal.
  unfold displayAlertStatistics, bind, gets, ret, modify_doc, modify,
    getElementById, appendChild. simpl.
  change (fun n0 : Node => String.eqb (nodeId n0) "statsModal") with is_statsModal in *.
  destruct (find is_statsModal b) as [m|] eqn:Ef; simpl.
  - destruct (Hmodal m eq_refl) as [cells Hc]. rewrite Hc, Hsev. simpl.
    rewrite update_first_compose by reflexivity. reflexivity.
  - rewrite Hsev. simpl.
    rewrite update_first_compose by reflexivity. reflexivity.
Qed.

(** After the call the page has a stats modal with a content panel. *)
Lemma displayAlertStatistics_keeps_modal (c : Client) (st : Statistics) (sev : BySeverity) :
  by_severity st = Some sev ->
  (forall m, getElementById "statsModal" (doc c) = Some m ->
             exists cells, nodeContent m = StatsPanel cells) ->
  exists m', find is_statsModal (body (doc (exec (displayAlertStatistics (Some st)) c)))
             = Some m'
             /\ exists cells, nodeContent m' = StatsPanel cells.
Proof.
  intros Hsev Hmodal. unfold exec.
  rewrite (displayAlertStatistics_body c st sev Hsev Hmodal). simpl.
  rewrite find_update_first by reflexivity.
  destruct (find is_statsModal (body (doc c))) as [m|] eqn:Ef.
  - rewrite Ef. simpl. eexists. split; [reflexivity|]. simpl. eauto.
  - rewrite find_app_none by exact Ef. simpl.
    eexists. split; [reflexivity|]. simpl. eauto.
Qed.

(** X7.  Showing the statistics twice is showing the later ones once:
    the second call reuses the modal of the first, so the page never
    holds a second stats modal and the numbers on display are those of
    the last call. *)
Theorem displayAlertStatistics_last_call_wins
    (c : Client) (st1 st2 : Statistics) (sev1 sev2 : BySeverity) :
  by_severity st1 = Some sev1 ->
  by_severity st2 = Some sev2 ->
  (forall m, getElementById "statsModal" (doc c) = Some m ->
             exists cells, nodeContent m = StatsPanel cells) ->
  exec (displayAlertStatistics (Some st2)) (exec (displayAlertStatistics (Some st1)) c)
  = exec (displayAlertStatistics (Some st2)) c
  /\ length (filter is_statsModal
               (body (doc (exec (displayAlertStatistics (Some st2))
                                (exec (displayAlertStatistics (Some st1)) c)))))
     = length (filter is_statsModal
                 (body (doc (exec (displayAlertStatistics (Some st1)) c)))).
Proof.
  intros H1 H2 Hmodal.
  destruct (displayAlertStatistics_keeps_modal c st1 sev1 H1 Hmodal) as [m1 [Hf1 Hc1]].
  assert (Hmodal1 : forall m,
            getElementById "statsModal" (doc (exec (displayAlertStatistics (Some st1)) c))
            = Some m -> exists cells, nodeContent m = StatsPanel cells).
  { intros m Hm. unfold getElementById in Hm.
    change (fun n : Node => String.eqb (nodeId n) "statsModal") with is_statsModal in Hm.
    rewrite Hf1 in Hm. injection Hm as <-. exact Hc1. }
  assert (E : exec (displayAlertStatistics (Some st2))
                (exec (displayAlertStatistics (Some st1)) c)
              = exec (displayAlertStatistics (Some st2)) c).
  { unfold exec at 1.
    rewrite (displayAlertStatistics_body _ st2 sev2 H2 Hmodal1). rewrite Hf1.
    unfold exec.
    rewrite (displayAlertStatistics_body c st1 sev1 H1 Hmodal).
    rewrite (displayAlertStatistics_body c st2 sev2 H2 Hmodal). simpl.
    rewrite update_first_compose by reflexivity.
    rewrite (update_first_ext is_statsModal _
               (fun n => mkNode (nodeId n) (classList_remove "hidden" (nodeClass n))
                           (StatsPanel (statsCells (total_alerts st2) sev2)))).
    - reflexivity.
    - intros n. simpl. now rewrite classList_remove_idem. }
  split; [exact E|].
  rewrite E. unfold exec.
  rewrite (displayAlertStatistics_body c st1 sev1 H1 Hmodal).
  rewrite (displayAlertStatistics_body c st2 sev2 H2 Hmodal). simpl.
  generalize (match find is_statsModal (body (doc c)) with
              | Some _ => body (doc c)
              | None => body (doc c) ++ [createStatsModal]
              end).
  intros l. induction l as [|a l IH]; simpl; auto.
  destruct (is_statsModal a) eqn:Ea; simpl.
  - unfold is_statsModal in *. simpl. rewrite Ea. reflexivity.
  - rewrite Ea. exact IH.
Qed.

(** X7 on the sample page: the counts 9, 3, 5, 1 shown after 7, 2, 4, 1. *)
Lemma displayAlertStatistics_last_call_wins_witness :
  let st1 := mkStatistics (JNum 7) (Some (mkBySeverity (JNum 2) (JNum 4) (JNum 1))) [] in
  let st2 := mkStatistics (JNum 9) (Some (mkBySeverity (JNum 3) (JNum 5) (JNum 1))) [] in
  exec (displayAlertStatistics (Some st2))
       (exec (displayAlertStatistics (Some st1)) Sample.fresh)
  = exec (displayAlertStatistics (Some st2)) Sample.fresh.
Proof.
  refine (proj1 (displayAlertStatistics_last_call_wins Sample.fresh
                   (mkStatistics (JNum 7) (Some (mkBySeverity (JNum 2) (JNum 4) (JNum 1))) [])
                   (mkStatistics (JNum 9) (Some (mkBySeverity (JNum 3) (JNum 5) (JNum 1))) [])
                   (mkBySeverity (JNum 2) (JNum 4) (JNum 1))
                   (mkBySeverity (JNum 3) (JNum 5) (JNum 1))
                   eq_refl eq_refl _)).
  intros m H. discriminate H.
Defined.

(** X8.  A statistics answer with status "success" that lacks the
    statistics object, or whose object lacks [by_severity], reaches a page
    without a stats modal: the modal is made and appended, still hidden
    and empty, and the failure only shows in the console.  An answer
    with another status changes nothing, and a failed request or an
    unparsable body only logs to the console. *)
Theorem showAlertStats_incomplete_answer (c : Client) (data : StatsData) :
  getElementById "statsModal" (doc c) = None ->
  (strict_eq_str (s_status data) "success" = true ->
   (statistics data = None
    \/ exists st, statistics data = Some st /\ by_severity st = None) ->
   exec (showAlertStats_settled (Fulfilled (Fulfilled data))) c
   = mkClient (examRunning c) (appendChild createStatsModal (doc c))
              (requests c) (S (consoleErrors c)))
  /\ (strict_eq_str (s_status data) "success" = false ->
      exec (showAlertStats_settled (Fulfilled (Fulfilled data))) c = c)
  /\ exec (showAlertStats_settled Rejected) c
     = mkClient (examRunning c) (doc c) (requests c) (S (consoleErrors c))
  /\ exec (showAlertStats_settled (Fulfilled Rejected)) c
     = mkClient (examRunning c) (doc c) (requests c) (S (consoleErrors c)).
Proof.
  intros Hnone.
  destruct c as [r d q n]. destruct d as [es sc ab asn at_ b].
  unfold getElementById in Hnone. simpl in Hnone.
  unfold exec, showAlertStats_settled, json, then_catch, try_catch,
    displayAlertStatistics, bind, gets, ret, throw, modify_doc, modify,
    getElementById, console_error. simpl.
  split; [|split; [|split; reflexivity]].
  - intros -> H. simpl. rewrite Hnone. simpl.
    destruct H as [-> | [st [-> ->]]]; reflexivity.
  - intros ->. reflexivity.
Qed.

(** X8 on the sample page, for an answer without the statistics object. *)
Lemma showAlertStats_incomplete_answer_witness :
  exec (showAlertStats_settled
          (Fulfilled (Fulfilled (mkStatsData (JStr "success") None)))) Sample.fresh
  = mkClient false (appendChild createStatsModal Sample.page) [] 1.
Proof.
  exact (proj1 (showAlertStats_incomplete_answer Sample.fresh
                  (mkStatsData (JStr "success") None) eq_refl)
               eq_refl (or_introl eq_refl)).
Defined.

(** X9.  Closing the stats modal hides it and keeps its numbers; showing
    the same statistics again gives back exactly the page as it was
    before the close.  Without a stats modal [closeStatsModal] changes
    nothing. *)
Theorem closeStatsModal_hides_and_reopens
    (c : Client) (st : Statistics) (sev : BySeverity) :
  by_severity st = Some sev ->
  (forall m, getElementById "statsModal" (doc c) = Some m ->
             exists cells, nodeContent m = StatsPanel cells) ->
  let shown := exec (displayAlertStatistics (Some st)) c in
  let closed := exec closeStatsModal shown in
  (exists m, getElementById "statsModal" (doc closed) = Some m
             /\ has_class "hidden" (nodeClass m) = true
             /\ nodeContent m = StatsPanel (statsCells (total_alerts st) sev))
  /\ exec (displayAlertStatistics (Some st)) closed = shown
  /\ (forall c0, getElementById "statsModal" (doc c0) = None ->
        exec closeStatsModal c0 = c0).
Proof.
  intros Hsev Hmodal. cbv zeta.
  destruct (displayAlertStatistics_keeps_modal c st sev Hsev Hmodal) as [m1 [Hf1 _]].
  assert (Hclosed : exec closeStatsModal (exec (displayAlertStatistics (Some st)) c)
            = set_doc
                (set_body
                   (update_first is_statsModal
                      (fun n => mkNode (nodeId n)
                                  (classList_add "hidden"
                                     (classList_remove "hidden" (nodeClass n)))
                                  (StatsPanel (statsCells (total_alerts st) sev)))
                      (match find is_statsModal (body (doc c)) with
                       | Some _ => body (doc c)
                       | None => body (doc c) ++ [createStatsModal]
                       end))
                   (doc c)) c).
  { unfold exec at 1, closeStatsModal, bind, gets, getElementById.
    change (fun n : Node => String.eqb (nodeId n) "statsModal") with is_statsModal.
    rewrite Hf1. unfold modify_doc, modify. simpl.
    unfold exec. rewrite (displayAlertStatistics_body c st sev Hsev Hmodal). simpl.
    rewrite update_first_compose by reflexivity. reflexivity. }
  assert (Hfind : exists m0,
            find is_statsModal
              (match find is_statsModal (body (doc c)) with
               | Some _ => body (doc c)
               | None => body (doc c) ++ [createStatsModal]
               end) = Some m0).
  { destruct (find is_statsModal (body (doc c))) as [m|] eqn:Ef.
    - rewrite Ef. eauto.
    - rewrite find_app_none by exact Ef. simpl. eauto. }
  destruct Hfind as [m0 Hm0].
  split; [|split].
  - rewrite Hclosed. unfold getElementById. simpl.
    change (fun n : Node => String.eqb (nodeId n) "statsModal") with is_statsModal.
    rewrite find_update_first by reflexivity. rewrite Hm0. simpl.
    eexists. split; [reflexivity|]. simpl.
    split; [apply has_class_add_same | reflexivity].
  - assert (Hmodal2 : forall m,
              getElementById "statsModal"
                (doc (exec closeStatsModal (exec (displayAlertStatistics (Some st)) c)))
              = Some m -> exists cells, nodeContent m = StatsPanel cells).
    { rewrite Hclosed. unfold getElementById. simpl.
      change (fun n : Node => String.eqb (nodeId n) "statsModal") with is_statsModal.
      rewrite find_update_first by reflexivity. rewrite Hm0. simpl.
      intros m H. injection H as <-. simpl. eauto. }
    unfold exec at 1.
    rewrite (displayAlertStatistics_body _ st sev Hsev Hmodal2).
    rewrite Hclosed. simpl.
    rewrite find_update_first by reflexivity. rewrite Hm0. simpl.
    rewrite update_first_compose by reflexivity.
    unfold exec. rewrite (displayAlertStatistics_body c st sev Hsev Hmodal). simpl.
    rewrite (update_first_ext is_statsModal _
               (fun n => mkNode (nodeId n) (classList_remove "hidden" (nodeClass n))
                           (StatsPanel (statsCells (total_alerts st) sev)))).
    + reflexivity.
    + intros n. simpl. now rewrite classList_remove_add, classList_remove_idem.
  - intros c0 H. unfold exec, closeStatsModal, bind, gets. now rewrite H.
Qed.

(** X9 on the sample page. *)
Lemma closeStatsModal_hides_and_reopens_witness :
  let st := mkStatistics (JNum 7) (Some (mkBySeverity (JNum 2) (JNum 4) (JNum 1))) [] in
  exec (displayAlertStatistics (Some st))
       (exec closeStatsModal (exec (displayAlertStatistics (Some st)) Sample.fresh))
  = exec (displayAlertStatistics (Some st)) Sample.fresh.
Proof.
  refine (proj1 (proj2 (closeStatsModal_hides_and_reopens Sample.fresh
                          (mkStatistics (JNum 7)
                             (Some (mkBySeverity (JNum 2) (JNum 4) (JNum 1))) [])
                          (mkBySeverity (JNum 2) (JNum 4) (JNum 1)) eq_refl _))).
  intros m H. discriminate H.
Defined.

End StatsModal.

Section WizardModals.
Import Exam Enhanced Wizard Rules WizardSteps.

(** The three close functions of the wizard script are one function. *)
Lemma close_functions_agree :
  closeRulesModal = closeCalibrationModal
  /\ closeCalibrationResults = closeCalibrationModal.
Proof. split; reflexivity. Qed.

Lemma exec_close (c : Client) :
  exec closeCalibrationModal c
  = set_doc (set_body (remove_first is_overlay (body (doc c))) (doc c)) c.
Proof. unfold exec. now rewrite closeCalibrationModal_removes_first. Qed.

Lemma exec_show (c : Client) (cal : CalibrationStatus) (ins : list jsval) :
  c_instructions cal = Some ins ->
  showCalibrationModal cal c
  = (set_doc
       (appendChild
          (mkNode ""
             ["fixed"; "inset-0"; "bg-black"; "bg-opacity-50"; "flex";
              "items-center"; "justify-center"; "z-50"]
             (WizardStep (c_current_step_index cal)))
          (doc c)) c,
     Normal tt).
Proof. intros H. unfold showCalibrationModal. now rewrite H. Qed.

(** X10.  Going to the next wizard step never takes the modal of the
    current step away: the click sends the next-step request, an answer
    that is not "completed" asks for the status, and the status answer
    appends the modal of the new step after everything already on the
    page.  Nothing is removed and no toast is shown. *)
Theorem next_step_stacks_a_modal
    (c : Client) (r : NextResult) (cal : CalibrationStatus) (ins : list jsval) :
  strict_eq_str (r_status r) "completed" = false ->
  c_instructions cal = Some ins ->
  let c1 := exec nextCalibrationStep c in
  let c2 := exec (nextCalibrationStep_settled
                    (Fulfilled (Fulfilled (mkNextData (JStr "success") (Some r))))) c1 in
  let c3 := exec (showCalibrationStep_settled
                    (Fulfilled (Fulfilled (mkStatusData (JStr "success") (Some cal))))) c2 in
  requests c3 = requests c ++ [POST url_calibration_next; GET url_calibration_status]
  /\ body (doc c3)
     = body (doc c)
       ++ [mkNode ""
             ["fixed"; "inset-0"; "bg-black"; "bg-opacity-50"; "flex";
              "items-center"; "justify-center"; "z-50"]
             (WizardStep (c_current_step_index cal))]
  /\ length (filter is_overlay (body (doc c3)))
     = S (length (filter is_overlay (body (doc c))))
  /\ consoleErrors c3 = consoleErrors c.
Proof.
  intros Hr Hi.
  destruct c as [x d q n]. destruct d as [es sc ab asn at_ b].
  unfold exec, nextCalibrationStep, nextCalibrationStep_settled,
    showCalibrationStep_settled, showCalibrationStep, json, then_catch, try_catch,
    bind, fetch, modify. simpl. rewrite Hr. simpl.
  rewrite (exec_show _ cal ins Hi). simpl.
  split; [now rewrite <- app_assoc|].
  split; [reflexivity|].
  split; [|reflexivity].
  rewrite filter_app, length_app. simpl. lia.
Qed.

(** X10 on the sample page, from the first step to the second. *)
Lemma next_step_stacks_a_modal_witness :
  let cal1 := mkCalibrationStatus (JStr "Camera") (Some []) (JNum 0) in
  let cal2 := mkCalibrationStatus (JStr "Lighting") (Some []) (JNum 1) in
  let c := exec (showCalibrationModal cal1) Sample.fresh in
  let c1 := exec nextCalibrationStep c in
  let c2 := exec (nextCalibrationStep_settled
                    (Fulfilled (Fulfilled
                       (mkNextData (JStr "success")
                          (Some (mkNextResult (JStr "in_progress"))))))) c1 in
  let c3 := exec (showCalibrationStep_settled
                    (Fulfilled (Fulfilled (mkStatusData (JStr "success") (Some cal2))))) c2 in
  length (filter is_overlay (body (doc c3))) = 2.
Proof.
  exact (proj1 (proj2 (proj2
    (next_step_stacks_a_modal
       (exec (showCalibrationModal (mkCalibrationStatus (JStr "Camera") (Some []) (JNum 0)))
             Sample.fresh)
       (mkNextResult (JStr "in_progress"))
       (mkCalibrationStatus (JStr "Lighting") (Some []) (JNum 1)) []
       eq_refl eq_refl)))).
Defined.

(** X11.  [closeCalibrationModal], called [k] times, removes the [k]
    oldest overlays of the page and nothing else: what is left of the
    overlays are the later ones in their order, and every child of the
    body that is not an overlay (every toast among them) stays.  So a
    wizard that stacked several modals needs as many closes, and a close
    on a page without overlay changes nothing. *)
Theorem close_removes_oldest_overlays (k : nat) (c : Client) :
  let c' := Nat.iter k (exec closeCalibrationModal) c in
  filter is_overlay (body (doc c')) = skipn k (filter is_overlay (body (doc c)))
  /\ filter (fun n => negb (is_overlay n)) (body (doc c'))
     = filter (fun n => negb (is_overlay n)) (body (doc c))
  /\ requests c' = requests c
  /\ examRunning c' = examRunning c
  /\ (filter is_overlay (body (doc c)) = [] -> body (doc c') = body (doc c)).
Proof.
  induction k as [|k IH]; simpl.
  - repeat split; reflexivity.
  - destruct IH as [H1 [H2 [H3 [H4 H5]]]]. rewrite exec_close. simpl.
    rewrite filter_remove_first, filter_remove_first_other, H1, H2.
    split.
    { generalize (filter is_overlay (body (doc c))). clear.
      intros l. revert l. induction k as [|k IHk]; intros l.
      - destruct l; reflexivity.
      - destruct l as [|a l]; [reflexivity|]. simpl. apply IHk. }
    split; [reflexivity|].
    split; [exact H3|]. split; [exact H4|].
    intros Hnil. rewrite (H5 Hnil). apply remove_first_none.
    clear - Hnil. induction (body (doc c)) as [|a l IHl]; simpl in *; auto.
    destruct (is_overlay a); [discriminate | auto].
Qed.

(** X11 on a page with two stacked wizard modals and a toast: two closes
    leave no overlay, and the toast is still there. *)
Lemma close_removes_oldest_overlays_witness :
  let c := exec (showCalibrationModal (mkCalibrationStatus (JStr "Camera") (Some []) (JNum 0)) ;;
                 showNotification (JStr "Running calibration test...") "info" ;;
                 showCalibrationModal (mkCalibrationStatus (JStr "Lighting") (Some []) (JNum 1)))
                Sample.fresh in
  filter is_overlay (body (doc (Nat.iter 2 (exec closeCalibrationModal) c))) = [].
Proof.
  exact (proj1 (close_removes_oldest_overlays 2
    (exec (showCalibrationModal (mkCalibrationStatus (JStr "Camera") (Some []) (JNum 0)) ;;
           showNotification (JStr "Running calibration test...") "info" ;;
           showCalibrationModal (mkCalibrationStatus (JStr "Lighting") (Some []) (JNum 1)))
          Sample.fresh))).
Defined.

(** The body after [displayAlertStatistics] on a page without stats
    modal: one more child, the modal, whatever the argument. *)
Lemma displayAlertStatistics_fresh_body (c : Client) (stats : option Statistics) :
  getElementById "statsModal" (doc c) = None ->
  exists m,
    body (doc (exec (displayAlertStatistics stats) c)) = body (doc c) ++ [m]
    /\ nodeId m = "statsModal"
    /\ is_overlay m = true.
Proof.
  intros Hnone.
  destruct c as [x d q n]. destruct d as [es sc ab asn at_ b].
  unfold getElementById in Hnone. simpl in Hnone.
  unfold exec, displayAlertStatistics, bind, gets, ret, throw, modify_doc, modify,
    getElementById, appendChild. simpl. rewrite Hnone. simpl.
  change (fun n0 : Node => String.eqb (nodeId n0) "statsModal") with is_statsModal in *.
  destruct stats as [st|]; simpl.
  - destruct (by_severity st) as [sev|]; simpl.
    + rewrite update_first_compose by reflexivity.
      rewrite update_first_app_none by exact Hnone. simpl.
      eexists. split; [reflexivity|]. split; reflexivity.
    + eexists. split; [reflexivity|]. split; reflexivity.
  - eexists. split; [reflexivity|]. split; reflexivity.
Qed.

(** X12.  On a page without overlays, once the statistics have been
    shown (the stats modal stays in the document when it is closed),
    opening a wizard step and closing it removes the stats modal, not
    the wizard: the wizard modal is still open and the page has no stats
    modal any more. *)
Theorem close_wizard_removes_stats_modal
    (c : Client) (stats : option Statistics) (cal : CalibrationStatus)
    (ins : list jsval) :
  filter is_overlay (body (doc c)) = [] ->
  getElementById "statsModal" (doc c) = None ->
  c_instructions cal = Some ins ->
  let c1 := exec (displayAlertStatistics stats) c in
  let c2 := exec (showCalibrationModal cal) c1 in
  let c3 := exec closeCalibrationModal c2 in
  map nodeContent (filter is_overlay (body (doc c3)))
    = [WizardStep (c_current_step_index cal)]
  /\ getElementById "statsModal" (doc c3) = None.
Proof.
  intros Hov Hnone Hi. cbv zeta.
  destruct (displayAlertStatistics_fresh_body c stats Hnone) as [m [Hb [Hid Hm]]].
  assert (Hfind : find is_overlay (body (doc c)) = None).
  { clear - Hov. induction (body (doc c)) as [|a l IH]; simpl in *; auto.
    destruct (is_overlay a); [discriminate | auto]. }
  assert (Hrem : forall l rest, find is_overlay l = None ->
                   remove_first is_overlay ((l ++ [m]) ++ rest) = l ++ rest).
  { intros l rest. induction l as [|a l IH]; simpl.
    - intros _. now rewrite Hm.
    - destruct (is_overlay a); [discriminate | intros H; now rewrite IH]. }
  assert (Hbody :
    body (doc (exec closeCalibrationModal
                 (exec (showCalibrationModal cal)
                    (exec (displayAlertStatistics stats) c))))
    = body (doc c)
      ++ [mkNode ""
            ["fixed"; "inset-0"; "bg-black"; "bg-opacity-50"; "flex";
             "items-center"; "justify-center"; "z-50"]
            (WizardStep (c_current_step_index cal))]).
  { rewrite exec_close. simpl. unfold exec at 1.
    rewrite (exec_show _ cal ins Hi). simpl. rewrite Hb.
    now apply Hrem. }
  split.
  - rewrite Hbody, filter_app, Hov. reflexivity.
  - unfold getElementById in *. rewrite Hbody.
    rewrite find_app_none by exact Hnone. reflexivity.
Qed.

(** X12 on the sample page. *)
Lemma close_wizard_removes_stats_modal_witness :
  let st := mkStatistics (JNum 7) (Some (mkBySeverity (JNum 2) (JNum 4) (JNum 1))) [] in
  let cal := mkCalibrationStatus (JStr "Camera") (Some []) (JNum 0) in
  let c1 := exec (displayAlertStatistics (Some st)) Sample.fresh in
  let c2 := exec (showCalibrationModal cal) c1 in
  let c3 := exec closeCalibrationModal c2 in
  map nodeContent (filter is_overlay (body (doc c3))) = [WizardStep (JNum 0)]
  /\ getElementById "statsModal" (doc c3) = None.
Proof.
  exact (close_wizard_removes_stats_modal Sample.fresh
           (Some (mkStatistics (JNum 7) (Some (mkBySeverity (JNum 2) (JNum 4) (JNum 1))) []))
           (mkCalibrationStatus (JStr "Camera") (Some []) (JNum 0)) []
           eq_refl eq_refl eq_refl).
Defined.

End WizardModals.

Section WizardAnswers.
Import Exam Enhanced Wizard Rules WizardSteps.

Ltac wizard_run :=
  unfold exec, threw, nextCalibrationStep_settled, startCalibrationWizard,
    startCalibrationWizard_settled, showCalibrationStep_settled,
    testCalibrationStep, testCalibrationStep_settled, showCalibrationResults,
    showCalibrationStep, acceptRules, json, then_catch, try_catch,
    showNotification, console_error, fetch, modify_doc, bind, gets, modify, ret, throw;
  simpl.

(** X13.  What the next-step callback does with the answers that are not
    a completed result.  An answer whose status is not "success" is
    dropped without a trace: no toast, no console entry, no request.  A
    "success" answer without a result object ends like a failed request:
    the toast "Failed to proceed to next step" and a console entry, the
    page otherwise as before. *)
Theorem next_step_answer_without_result (c : Client) (data : NextData) :
  (strict_eq_str (n_status data) "success" = false ->
     exec (nextCalibrationStep_settled (Fulfilled (Fulfilled data))) c = c)
  /\ (strict_eq_str (n_status data) "success" = true -> n_result data = None ->
        exec (nextCalibrationStep_settled (Fulfilled (Fulfilled data))) c
        = exec (nextCalibrationStep_settled Rejected) c)
  /\ exec (nextCalibrationStep_settled (Fulfilled Rejected)) c
     = exec (nextCalibrationStep_settled Rejected) c
  /\ exec (nextCalibrationStep_settled Rejected) c
     = mkClient (examRunning c)
         (appendChild (toast (JStr "Failed to proceed to next step") "error") (doc c))
         (requests c) (S (consoleErrors c)).
Proof.
  destruct c as [x d q n]. destruct d as [es sc ab asn at_ b]. wizard_run.
  split; [intros ->; reflexivity|].
  split; [intros -> ->; reflexivity|].
  split; reflexivity.
Qed.

(** X13 on the sample page: an answer with status "error" changes
    nothing. *)
Lemma next_step_answer_without_result_witness :
  exec (nextCalibrationStep_settled
          (Fulfilled (Fulfilled (mkNextData (JStr "error") None)))) Sample.fresh
  = Sample.fresh.
Proof.
  exact (proj1 (next_step_answer_without_result Sample.fresh
                  (mkNextData (JStr "error") None)) eq_refl).
Defined.

(** X14.  Accepting the rules never starts the exam: whatever the state
    of the checkbox, [acceptRules] sends no request and leaves
    [examRunning] as it is.  With the box unchecked nothing is closed and
    an error toast is shown; with the box checked the oldest overlay of
    the page is removed and a success toast is shown; without a checkbox
    the call throws before it changes anything. *)
Theorem acceptRules_never_starts_exam (c : Client) (checkbox : option bool) :
  let c' := exec (acceptRules checkbox) c in
  requests c' = requests c
  /\ examRunning c' = examRunning c
  /\ (checkbox = Some false ->
        body (doc c')
        = body (doc c) ++ [toast (JStr "Please accept the exam rules first") "error"])
  /\ (checkbox = Some true ->
        body (doc c')
        = remove_first is_overlay (body (doc c))
          ++ [toast (JStr "Rules accepted! You can now start the exam.") "success"])
  /\ (checkbox = None -> c' = c /\ threw (acceptRules checkbox) c = true).
Proof.
  destruct checkbox as [[|]|]; unfold exec, threw, acceptRules; simpl.
  - unfold bind. change closeRulesModal with closeCalibrationModal.
    rewrite closeCalibrationModal_removes_first.
    destruct c as [x d q n]. destruct d as [es sc ab asn at_ b]. simpl.
    repeat split; intros; try discriminate; reflexivity.
  - destruct c as [x d q n]. destruct d as [es sc ab asn at_ b]. simpl.
    repeat split; intros; try discriminate; reflexivity.
  - repeat split; intros; try discriminate; reflexivity.
Qed.

(** X14 on the sample page with the rules modal open and its box
    checked: the modal is closed, no request is sent and the exam is not
    running. *)
Lemma acceptRules_never_starts_exam_witness :
  let c := exec showExamRules Sample.fresh in
  body (doc (exec (acceptRules (Some true)) c))
  = [toast (JStr "Rules accepted! You can now start the exam.") "success"].
Proof.
  exact (proj1 (proj2 (proj2 (proj2
    (acceptRules_never_starts_exam (exec showExamRules Sample.fresh) (Some true)))))
    eq_refl).
Defined.

(** X15.  Starting the wizard: the call shows a toast and sends the
    start request; a "success" answer asks for the status, and a status
    answer with a calibration object appends the modal of the step.  A
    status answer without the calibration object, or whose object has no
    instructions, puts no modal on the page and only logs to the
    console; a failed start shows the toast "Failed to start
    calibration". *)
Theorem start_wizard_flow (c : Client) (cal : CalibrationStatus) :
  let c1 := exec startCalibrationWizard c in
  let c2 := exec (startCalibrationWizard_settled
                    (Fulfilled (Fulfilled (mkStartData (JStr "success"))))) c1 in
  let answer calibration :=
    showCalibrationStep_settled
      (Fulfilled (Fulfilled (mkStatusData (JStr "success") calibration))) in
  requests c2 = requests c ++ [POST url_calibration_start; GET url_calibration_status]
  /\ body (doc c2)
     = body (doc c) ++ [toast (JStr "Starting calibration wizard...") "info"]
  /\ (forall ins, c_instructions cal = Some ins ->
        body (doc (exec (answer (Some cal)) c2))
        = body (doc c2)
          ++ [mkNode ""
                ["fixed"; "inset-0"; "bg-black"; "bg-opacity-50"; "flex";
                 "items-center"; "justify-center"; "z-50"]
                (WizardStep (c_current_step_index cal))])
  /\ (c_instructions cal = None ->
        exec (answer (Some cal)) c2
        = mkClient (examRunning c2) (doc c2) (requests c2) (S (consoleErrors c2)))
  /\ exec (answer None) c2
     = mkClient (examRunning c2) (doc c2) (requests c2) (S (consoleErrors c2))
  /\ body (doc (exec (startCalibrationWizard_settled Rejected) c1))
     = body (doc c1) ++ [toast (JStr "Failed to start calibration") "error"].
Proof.
  destruct c as [x d q n]. destruct d as [es sc ab asn at_ b]. wizard_run.
  split; [now rewrite <- app_assoc|].
  split; [reflexivity|].
  split; [intros ins H; unfold showCalibrationModal; rewrite H; reflexivity|].
  split; [intros H; unfold showCalibrationModal; rewrite H; reflexivity|].
  split; reflexivity.
Qed.

(** X15 on the sample page, with the first step of the wizard. *)
Lemma start_wizard_flow_witness :
  let c1 := exec startCalibrationWizard Sample.fresh in
  let c2 := exec (startCalibrationWizard_settled
                    (Fulfilled (Fulfilled (mkStartData (JStr "success"))))) c1 in
  let cal := mkCalibrationStatus (JStr "Camera") (Some [JStr "Sit upright"]) (JNum 0) in
  map nodeContent
    (body (doc (exec (showCalibrationStep_settled
                        (Fulfilled (Fulfilled (mkStatusData (JStr "success") (Some cal)))))
                     c2)))
  = [Plain (JStr "Starting calibration wizard..."); WizardStep (JNum 0)].
Proof.
  cbv zeta.
  rewrite (proj1 (proj2 (proj2
    (start_wizard_flow Sample.fresh
       (mkCalibrationStatus (JStr "Camera") (Some [JStr "Sit upright"]) (JNum 0)))))
    [JStr "Sit upright"] eq_refl).
  reflexivity.
Defined.

(** X16.  The results of a calibration test open in a modal after the
    overlays already on the page, and the Close button of that modal
    removes the oldest overlay: with a wizard modal open, as it is when
    the test is started, closing the results takes a wizard modal away
    and leaves the results modal on the page.  A "success" answer
    without results ends like a failed request, with the toast
    "Calibration test error"; another status gives "Calibration test
    failed". *)
Theorem close_results_closes_wizard_instead
    (c : Client) (results : TestResults) (data : TestData) :
  filter is_overlay (body (doc c)) <> [] ->
  let shown := exec (testCalibrationStep_settled
                       (Fulfilled (Fulfilled
                          (mkTestData (JStr "success") (Some results))))) c in
  body (doc shown) = body (doc c) ++ [resultsModal]
  /\ filter is_overlay (body (doc (exec closeCalibrationResults shown)))
     = tl (filter is_overlay (body (doc c))) ++ [resultsModal]
  /\ body (doc (exec (testCalibrationStep_settled
                        (Fulfilled (Fulfilled (mkTestData (JStr "success") None)))) c))
     = body (doc c) ++ [toast (JStr "Calibration test error") "error"]
  /\ (strict_eq_str (td_status data) "success" = false ->
        body (doc (exec (testCalibrationStep_settled (Fulfilled (Fulfilled data))) c))
        = body (doc c) ++ [toast (JStr "Calibration test failed") "error"]).
Proof.
  intros Hopen. cbv zeta.
  change closeCalibrationResults with closeCalibrationModal. rewrite exec_close.
  destruct c as [x d q n]. destruct d as [es sc ab asn at_ b]. simpl in Hopen.
  wizard_run.
  split; [reflexivity|].
  split; [|split; [reflexivity | intros ->; reflexivity]].
  rewrite filter_remove_first, filter_app. simpl.
  destruct (filter is_overlay b); [now elim Hopen | reflexivity].
Qed.

(** X16 on the sample page with the first wizard step open. *)
Lemma close_results_closes_wizard_instead_witness :
  let c := exec (showCalibrationModal
                   (mkCalibrationStatus (JStr "Camera") (Some []) (JNum 0))) Sample.fresh in
  let shown := exec (testCalibrationStep_settled
                       (Fulfilled (Fulfilled
                          (mkTestData (JStr "success")
                             (Some (mkTestResults (JStr "Camera ok") (JBool true)
                                      (JStr "success") None)))))) c in
  filter is_overlay (body (doc (exec closeCalibrationResults shown))) = [resultsModal].
Proof.
  refine (proj1 (proj2 (close_results_closes_wizard_instead
    (exec (showCalibrationModal (mkCalibrationStatus (JStr "Camera") (Some []) (JNum 0)))
          Sample.fresh)
    (mkTestResults (JStr "Camera ok") (JBool true) (JStr "success") None)
    (mkTestData (JStr "error") None) _))).
  discriminate.
Defined.

End WizardAnswers.

Section EnhancedAlerts.
Import Exam AlertPanel.

Variable toUpperCase : string -> string.
Variable localeTime : jsval -> string.
Variable prototypeClass : string -> option (list string).

Ltac panel_run :=
  unfold exec, threw, updateEnhancedAlerts_settled, updateEnhancedAlertSection,
    dismissAlert, escalateAlert, panelHidden, onClient, modify_widgets, json,
    then_catch, try_catch, showNotification, console_error, modify_doc,
    bind, gets, modify, ret, throw;
  simpl.

(** The class of a severity: the colour of the three own keys of the
    literal, and gray for a name that the literal neither has nor
    inherits. *)
Lemma getSeverityColorClass_cases (s : string) :
  (s = "critical" -> getSeverityColorClass prototypeClass s = ["text-red-400"])
  /\ (s = "warning" -> getSeverityColorClass prototypeClass s = ["text-yellow-400"])
  /\ (s = "info" -> getSeverityColorClass prototypeClass s = ["text-blue-400"])
  /\ (s <> "critical" -> s <> "warning" -> s <> "info" ->
        getSeverityColorClass prototypeClass s
        = match prototypeClass s with
          | Some inherited => inherited
          | None => ["text-gray-400"]
          end).
Proof.
  unfold getSeverityColorClass.
  split; [intros ->; reflexivity|].
  split; [intros ->; reflexivity|].
  split; [intros ->; reflexivity|].
  intros H1 H2 H3. simpl.
  apply String.eqb_neq in H1, H2, H3. now rewrite H1, H2, H3.
Qed.

(** X17.  On a page with the whole panel, a "success" answer of the
    recent-alerts poll shows its first alert and only that one: message,
    upper-cased severity with the class that [getSeverityColorClass]
    gives it (red, yellow or blue for the three own keys, gray for a name
    the literal neither has nor inherits), and time; the alerts after the
    first play no part.  The poll makes the panel visible even right
    after it was dismissed, so a dismissal lasts only until the next poll
    that finds an alert.  An answer with an empty list, or with another
    status, changes nothing: the poll never hides the panel. *)
Theorem recent_alerts_poll_shows_first_alert
    (P : Page) (box sev time section : Element)
    (a : RecentAlert) (s : string) (rest : list RecentAlert) :
  widgets P = mkWidgets (Some box) (Some sev) (Some time) (Some section) ->
  al_severity a = Some s ->
  let poll alerts status :=
    exec (updateEnhancedAlerts_settled toUpperCase localeTime prototypeClass
            (Fulfilled (Fulfilled (mkRecentData status alerts)))) in
  let shown := poll (Some (a :: rest)) (JStr "success") P in
  enhancedAlertBox (widgets shown) = Some (mkElement (className box) (al_message a))
  /\ enhancedAlertSeverity (widgets shown)
     = Some (mkElement (getSeverityColorClass prototypeClass s) (JStr (toUpperCase s)))
  /\ (s = "critical" -> getSeverityColorClass prototypeClass s = ["text-red-400"])
  /\ (s = "warning" -> getSeverityColorClass prototypeClass s = ["text-yellow-400"])
  /\ (s = "info" -> getSeverityColorClass prototypeClass s = ["text-blue-400"])
  /\ (s <> "critical" -> s <> "warning" -> s <> "info" -> prototypeClass s = None ->
        getSeverityColorClass prototypeClass s = ["text-gray-400"])
  /\ enhancedAlertTime (widgets shown)
     = Some (mkElement (className time) (JStr (localeTime (al_timestamp a))))
  /\ (exists section',
        enhancedAlertSection (widgets shown) = Some section'
        /\ has_class "hidden" (className section') = false
        /\ has_class "alert-slide" (className section') = true
        /\ innerText section' = innerText section
        /\ forall t, String.eqb t "hidden" = false -> String.eqb t "alert-slide" = false ->
             has_class t (className section') = has_class t (className section))
  /\ client shown = client P
  /\ shown = poll (Some [a]) (JStr "success") P
  /\ panelHidden shown = Some false
  /\ panelHidden (exec dismissAlert shown) = Some true
  /\ panelHidden (poll (Some (a :: rest)) (JStr "success") (exec dismissAlert P))
     = Some false
  /\ poll (Some []) (JStr "success") P = P
  /\ (forall alerts status, strict_eq_str status "success" = false ->
        poll alerts status P = P).
Proof.
  intros Hw Hs.
  assert (Hvis : forall cls, has_class "hidden"
                   (classList_add "alert-slide" (classList_remove "hidden" cls)) = false).
  { intros cls. rewrite has_class_add_other by reflexivity. apply has_class_remove_same. }
  destruct (getSeverityColorClass_cases s) as [Hc1 [Hc2 [Hc3 Hc4]]].
  destruct P as [c w]. simpl in Hw. subst w. panel_run. rewrite Hs. simpl.
  destruct c as [x d q n].
  split; [reflexivity|]. split; [reflexivity|].
  split; [exact Hc1|]. split; [exact Hc2|]. split; [exact Hc3|].
  split; [intros H1 H2 H3 Hp; rewrite (Hc4 H1 H2 H3), Hp; reflexivity|].
  split; [reflexivity|].
  split.
  { eexists. split; [reflexivity|]. simpl.
    split; [apply Hvis|]. split; [apply has_class_add_same|].
    split; [reflexivity|].
    intros t Ht1 Ht2. rewrite has_class_add_other by exact Ht2.
    now apply has_class_remove_other. }
  split; [reflexivity|]. split; [reflexivity|].
  split; [now rewrite Hvis|].
  split; [now rewrite has_class_add_same|].
  split; [now rewrite Hvis|].
  split; [reflexivity|].
  intros alerts status ->. reflexivity.
Qed.

(** X18.  Where the recent-alerts callback stops half way.  An alert
    whose severity is not a string has its message written to the box
    and then throws: severity, time and the visibility of the panel stay
    as they were, and the console gets an entry.  On a page that has
    box, severity and time element but no section, all three are written
    before the missing section throws.  A "success" answer without the
    alerts list only logs to the console, and on a page that lacks the
    box, the severity or the time element the callback writes
    nothing. *)
Theorem recent_alerts_poll_partial_update
    (P : Page) (box sev time : Element) (section : option Element)
    (a : RecentAlert) (rest : list RecentAlert) :
  widgets P = mkWidgets (Some box) (Some sev) (Some time) section ->
  let poll alerts Q :=
    exec (updateEnhancedAlerts_settled toUpperCase localeTime prototypeClass
            (Fulfilled (Fulfilled (mkRecentData (JStr "success") alerts)))) Q in
  let logged c := mkClient (examRunning c) (doc c) (requests c) (S (consoleErrors c)) in
  (al_severity a = None ->
     poll (Some (a :: rest)) P
     = mkPage (logged (client P))
         (mkWidgets (Some (mkElement (className box) (al_message a)))
                    (Some sev) (Some time) section))
  /\ (forall s, al_severity a = Some s -> section = None ->
        poll (Some (a :: rest)) P
        = mkPage (logged (client P))
            (mkWidgets
               (Some (mkElement (className box) (al_message a)))
               (Some (mkElement (getSeverityColorClass prototypeClass s)
                                (JStr (toUpperCase s))))
               (Some (mkElement (className time) (JStr (localeTime (al_timestamp a)))))
               None))
  /\ poll None P = mkPage (logged (client P)) (widgets P)
  /\ (forall Q, enhancedAlertBox (widgets Q) = None
                \/ enhancedAlertSeverity (widgets Q) = None
                \/ enhancedAlertTime (widgets Q) = None ->
        poll (Some (a :: rest)) Q = Q).
Proof.
  intros Hw. destruct P as [c w]. simpl in Hw. subst w.
  destruct c as [x d q n]. panel_run.
  split; [intros ->; reflexivity|].
  split; [intros s -> ->; reflexivity|].
  split; [reflexivity|].
  intros [c0 [b0 s0 t0 sec0]]. simpl. destruct c0 as [x0 d0 q0 n0].
  intros [-> | [-> | ->]]; simpl;
    try reflexivity; destruct b0; try reflexivity; destruct s0; reflexivity.
Qed.

(** X19.  Escalating an alert sends nothing to the backend: the request
    log and the session flag are as before, the only effects are the
    toast "Alert escalated to administrator" and the hidden panel, whose
    texts stay in place; the panel is exactly as after a plain
    dismissal. *)
Theorem escalateAlert_sends_nothing (P : Page) :
  requests (client (exec escalateAlert P)) = requests (client P)
  /\ examRunning (client (exec escalateAlert P)) = examRunning (client P)
  /\ body (doc (client (exec escalateAlert P)))
     = body (doc (client P))
       ++ [toast (JStr "Alert escalated to administrator") "error"]
  /\ widgets (exec escalateAlert P) = widgets (exec dismissAlert P)
  /\ enhancedAlertBox (widgets (exec escalateAlert P)) = enhancedAlertBox (widgets P)
  /\ (enhancedAlertSection (widgets P) <> None ->
        panelHidden (exec escalateAlert P) = Some true).
Proof.
  destruct P as [c [b s t sec]]. destruct c as [x d q n]. panel_run.
  destruct sec as [section|]; simpl; repeat split; try reflexivity.
  - intros _. now rewrite has_class_add_same.
  - intros H. now elim H.
Qed.

End EnhancedAlerts.

Section EnhancedAlertsExamples.
Import Exam AlertPanel.

(** X17 on the sample panel, for a critical alert followed by another
    one. *)
Lemma recent_alerts_poll_shows_first_alert_witness :
  let a := mkRecentAlert (JStr "Multiple faces") (Some "critical") (JNum 1700000000) in
  let b := mkRecentAlert (JStr "Head movement") (Some "warning") (JNum 1699999990) in
  enhancedAlertSeverity
    (widgets (exec (updateEnhancedAlerts_settled SamplePanel.upper SamplePanel.clock
                      SamplePanel.inherited
                      (Fulfilled (Fulfilled
                         (mkRecentData (JStr "success") (Some [a; b])))))
                   SamplePanel.page))
  = Some (mkElement ["text-red-400"] (JStr "CRITICAL")).
Proof.
  cbv zeta.
  rewrite (proj1 (proj2 (recent_alerts_poll_shows_first_alert
                    SamplePanel.upper SamplePanel.clock SamplePanel.inherited
                    SamplePanel.page
                    (mkElement [] (JStr "")) (mkElement [] (JStr ""))
                    (mkElement [] (JStr "")) (mkElement ["hidden"] (JStr ""))
                    (mkRecentAlert (JStr "Multiple faces") (Some "critical")
                       (JNum 1700000000))
                    "critical"
                    [mkRecentAlert (JStr "Head movement") (Some "warning")
                       (JNum 1699999990)]
                    eq_refl eq_refl))).
  reflexivity.
Defined.

(** A severity named like a member every object inherits gets that
    member as its class, not the gray fallback. *)
Example inherited_name_skips_gray :
  getSeverityColorClass SamplePanel.inherited "constructor"
  = ["function"; "Object()"; "{"; "[native"; "code]"; "}"]
  /\ getSeverityColorClass SamplePanel.inherited "minor" = ["text-gray-400"].
Proof. split; reflexivity. Qed.

(** X18 on the sample panel, for an alert whose severity is missing. *)
Lemma recent_alerts_poll_partial_update_witness :
  let a := mkRecentAlert (JStr "Multiple faces") None (JNum 1700000000) in
  enhancedAlertBox
    (widgets (exec (updateEnhancedAlerts_settled SamplePanel.upper SamplePanel.clock
                      SamplePanel.inherited
                      (Fulfilled (Fulfilled (mkRecentData (JStr "success") (Some [a])))))
                   SamplePanel.page))
  = Some (mkElement [] (JStr "Multiple faces")).
Proof.
  cbv zeta.
  rewrite (proj1 (recent_alerts_poll_partial_update
                    SamplePanel.upper SamplePanel.clock SamplePanel.inherited
                    SamplePanel.page
                    (mkElement [] (JStr "")) (mkElement [] (JStr ""))
                    (mkElement [] (JStr "")) (Some (mkElement ["hidden"] (JStr "")))
                    (mkRecentAlert (JStr "Multiple faces") None (JNum 1700000000))
                    [] eq_refl) eq_refl).
  reflexivity.
Defined.

(** X19 on the sample panel: the panel is hidden after the escalation. *)
Lemma escalateAlert_sends_nothing_witness :
  panelHidden (exec escalateAlert SamplePanel.page) = Some true.
Proof.
  refine (proj2 (proj2 (proj2 (proj2 (proj2
            (escalateAlert_sends_nothing SamplePanel.page))))) _).
  discriminate.
Defined.

End EnhancedAlertsExamples.

Section WizardCompletion.
Import Exam Wizard WizardSteps WizardRun.

Lemma stepModal_is_overlay (cal : CalibrationStatus) : is_overlay (stepModal cal) = true.
Proof. reflexivity. Qed.

Lemma opened_body (first : CalibrationStatus) (ins : list jsval) (c : Client) :
  c_instructions first = Some ins ->
  body (doc (opened first c))
  = body (doc c) ++ [toast (JStr "Starting calibration wizard...") "info"; stepModal first].
Proof.
  intros Hi. destruct c as [x d q n]. destruct d as [es sc ab asn at_ b].
  unfold opened, statusAnswer, exec, startCalibrationWizard,
    startCalibrationWizard_settled, showCalibrationStep_settled, showCalibrationStep,
    json, then_catch, try_catch, showNotification, fetch, modify_doc, bind, modify.
  simpl. unfold showCalibrationModal. rewrite Hi. simpl.
  now rewrite <- app_assoc.
Qed.

Lemma advanced_body (r : NextResult) (cal : CalibrationStatus) (ins : list jsval)
    (c : Client) :
  strict_eq_str (r_status r) "completed" = false ->
  c_instructions cal = Some ins ->
  body (doc (advanced r cal c)) = body (doc c) ++ [stepModal cal].
Proof.
  intros Hr Hi. destruct c as [x d q n]. destruct d as [es sc ab asn at_ b].
  unfold advanced, statusAnswer, exec, nextCalibrationStep,
    nextCalibrationStep_settled, showCalibrationStep_settled, showCalibrationStep,
    json, then_catch, try_catch, fetch, bind, modify.
  simpl. rewrite Hr. simpl. unfold showCalibrationModal. rewrite Hi. reflexivity.
Qed.

Lemma advanced_overlays (r : NextResult) (rest : list CalibrationStatus) :
  strict_eq_str (r_status r) "completed" = false ->
  Forall (fun cal => c_instructions cal <> None) rest ->
  forall (c0 : Client) (old : list Node),
  filter is_overlay (body (doc c0)) = old ->
  filter is_overlay (body (doc (fold_left (fun c1 cal => advanced r cal c1) rest c0)))
  = old ++ map stepModal rest.
Proof.
  intros Hr Hrest.
  induction Hrest as [|cal rest Hcal Hrest IH]; intros c0 old Hold; simpl.
  - now rewrite app_nil_r.
  - destruct (c_instructions cal) as [ins|] eqn:E; [|now elim Hcal].
    rewrite (IH (advanced r cal c0) (old ++ [stepModal cal])).
    + now rewrite <- app_assoc.
    + rewrite (advanced_body r cal ins c0 Hr E), filter_app, Hold. reflexivity.
Qed.

(** After a walk through the wizard every step shown has its modal on
    the page, after the overlays that were there before. *)
Lemma walked_overlays (r : NextResult) (first : CalibrationStatus)
    (rest : list CalibrationStatus) (c : Client) :
  strict_eq_str (r_status r) "completed" = false ->
  c_instructions first <> None ->
  Forall (fun cal => c_instructions cal <> None) rest ->
  filter is_overlay (body (doc (walked r first rest c)))
  = filter is_overlay (body (doc c)) ++ map stepModal (first :: rest).
Proof.
  intros Hr Hf Hrest. unfold walked.
  destruct (c_instructions first) as [ins|] eqn:E; [|now elim Hf].
  rewrite (advanced_overlays r rest Hr Hrest (opened first c)
             (filter is_overlay (body (doc c)) ++ [stepModal first])).
  - now rewrite <- app_assoc.
  - rewrite (opened_body first ins c E), filter_app. reflexivity.
Qed.

(** C8.  The wizard script does not close the wizard on a completed
    result.  Walk the wizard through its steps, as the script itself
    does: every step appends its modal and removes none.  The callback of
    the completed result then shows the success toast and calls
    [closeCalibrationModal], which removes the oldest overlay only: of
    the wizard's modals all but the one of the first step are still on
    the page.  The wizard is closed only when it has a single step. *)
Theorem completed_leaves_wizard_modals_open
    (c : Client) (r : NextResult) (first : CalibrationStatus)
    (rest : list CalibrationStatus) (data : NextData) (res : NextResult) :
  strict_eq_str (r_status r) "completed" = false ->
  c_instructions first <> None ->
  Forall (fun cal => c_instructions cal <> None) rest ->
  n_status data = JStr "success" ->
  n_result data = Some res ->
  r_status res = JStr "completed" ->
  let c0 := walked r first rest c in
  let c' := finished data c0 in
  filter is_overlay (body (doc c0))
  = filter is_overlay (body (doc c)) ++ map stepModal (first :: rest)
  /\ body (doc c')
     = remove_first is_overlay (body (doc c0))
       ++ [toast (JStr "Calibration completed successfully!") "success"]
  /\ filter is_overlay (body (doc c'))
     = tl (filter is_overlay (body (doc c)) ++ map stepModal (first :: rest))
  /\ (filter is_overlay (body (doc c)) = [] ->
        filter is_overlay (body (doc c')) = map stepModal rest)
  /\ (rest <> [] -> filter is_overlay (body (doc c')) <> []).
Proof.
  intros Hr Hf Hrest H1 H2 H3. cbv zeta.
  pose proof (walked_overlays r first rest c Hr Hf Hrest) as Hw.
  assert (Hbody : body (doc (finished data (walked r first rest c)))
                  = remove_first is_overlay (body (doc (walked r first rest c)))
                    ++ [toast (JStr "Calibration completed successfully!") "success"]).
  { unfold finished, exec at 1.
    rewrite (nextCalibrationStep_completed _ data res H1 H2 H3). simpl.
    destruct (walked r first rest c) as [x d q n]. reflexivity. }
  assert (Hov : filter is_overlay (body (doc (finished data (walked r first rest c))))
                = tl (filter is_overlay (body (doc c)) ++ map stepModal (first :: rest))).
  { rewrite Hbody, filter_app, filter_remove_first, Hw. simpl. apply app_nil_r. }
  split; [exact Hw|]. split; [exact Hbody|]. split; [exact Hov|].
  split.
  - intros Hnil. rewrite Hov, Hnil. reflexivity.
  - intros Hne. rewrite Hov.
    destruct (filter is_overlay (body (doc c))) as [|o old]; simpl.
    + destruct rest; [now elim Hne | discriminate].
    + destruct old; discriminate.
Qed.

(** The statement of C8 on the sample page with the four steps of the
    sequence: after the completed result the modals of the second, third
    and fourth step are still open. *)
Lemma completed_leaves_wizard_modals_open_witness :
  let c0 := walked (mkNextResult (JStr "in_progress")) cameraStep laterSteps Sample.fresh in
  let c' := finished (Core.advanceResponse Core.Completed) c0 in
  map nodeContent (filter is_overlay (body (doc c')))
  = [WizardStep (JNum 1); WizardStep (JNum 2); WizardStep (JNum 3)].
Proof.
  cbv zeta.
  assert (Hf : c_instructions cameraStep <> None) by discriminate.
  assert (Hl : Forall (fun cal => c_instructions cal <> None) laterSteps)
    by (repeat constructor; discriminate).
  rewrite (proj1 (proj2 (proj2 (proj2
    (completed_leaves_wizard_modals_open Sample.fresh
       (mkNextResult (JStr "in_progress")) cameraStep laterSteps
       (Core.advanceResponse Core.Completed) (mkNextResult (JStr "completed"))
       eq_refl Hf Hl eq_refl eq_refl eq_refl)))) eq_refl).
  reflexivity.
Defined.

End WizardCompletion.
